(** * Certificate Genie: field placement, scaling, mapping and batch accounting

    A shallow embedding of the logic of the certificate template editor
    ([TemplateEditor]), the read-only preview ([CertificatePreview]) and the
    generation page ([Generate]), together with the properties their
    specification states about them.

    Conventions of the embedding:
    - a JavaScript [number] is an exact rational extended with [NaN] and the
      two infinities; IEEE rounding and the sign of zero are not modelled, so
      decimal literals such as [0.9] denote the rational [9/10];
    - a JavaScript object used as a dictionary ([Record<string,string>]) is a
      [gmap string string] holding its own properties; a read [o[k]] also
      finds the members every object inherits from [Object.prototype]
      ([JS.get]), and an assignment to [__proto__] adds no property
      ([JS.assign]);
    - a string is held as the bytes of its UTF-8 form; what the engine
      brings and the embedding cannot define (the case folding of Unicode,
      the text of a built-in function) is a parameter, the class
      [JS.Engine], and every general statement holds for every engine;
    - the hosted backend is a record of tables; each request either is
      accepted and changes a table or is rejected with an error and changes
      nothing, as decided by a fault schedule. *)

From Stdlib Require Import QArith Qcanon Qround ZArith Ascii Lqa.
From stdpp Require Import base numbers option list strings pretty gmap.

Open Scope Qc_scope.

(** ** JavaScript values *)

Module JS.

Inductive number : Type :=
| NaN
| NegInf
| Fin (q : Qc)
| PosInf.

#[export] Instance number_eq_dec : EqDecision number.
Proof. solve_decision. Defined.

Definition of_Z (z : Z) : number := Fin (Q2Qc (inject_Z z)).
Definition of_nat (n : nat) : number := of_Z (Z.of_nat n).
Definition ratio (n : Z) (d : positive) : number := Fin (Q2Qc (n # d)).

(** The infinity of a given sign. *)
Definition inf (negative : bool) : number :=
  if negative then NegInf else PosInf.

(** [x * y] (Number::multiply). *)
Definition mul (a b : number) : number :=
  match a, b with
  | NaN, _ | _, NaN => NaN
  | Fin x, Fin y => Fin (x * y)
  | Fin x, PosInf | PosInf, Fin x =>
      if decide (x = 0) then NaN else inf (bool_decide (x < 0))
  | Fin x, NegInf | NegInf, Fin x =>
      if decide (x = 0) then NaN else inf (bool_decide (0 < x))
  | PosInf, PosInf | NegInf, NegInf => PosInf
  | PosInf, NegInf | NegInf, PosInf => NegInf
  end.

(** [x / y] (Number::divide): a non-zero number over zero is an infinity,
    zero over zero and infinity over infinity are [NaN]. *)
Definition div (a b : number) : number :=
  match a, b with
  | NaN, _ | _, NaN => NaN
  | Fin x, Fin y =>
      if decide (y = 0)
      then (if decide (x = 0) then NaN else inf (bool_decide (x < 0)))
      else Fin (x / y)
  | Fin _, (PosInf | NegInf) => Fin 0
  | PosInf, Fin y => inf (bool_decide (y < 0))
  | NegInf, Fin y => inf (bool_decide (0 <= y))
  | (PosInf | NegInf), (PosInf | NegInf) => NaN
  end.

(** [x < y] (false as soon as one side is [NaN]). *)
Definition lt (a b : number) : bool :=
  match a, b with
  | NaN, _ | _, NaN => false
  | NegInf, NegInf => false
  | NegInf, _ => true
  | _, NegInf => false
  | PosInf, _ => false
  | Fin _, PosInf => true
  | Fin x, Fin y => bool_decide (x < y)
  end.

Definition isNaN (a : number) : bool :=
  match a with NaN => true | _ => false end.

(** [Math.min(...args)]: [NaN] if some argument is [NaN], else the least
    argument, starting from [+Infinity]. *)
Definition Math_min (args : list number) : number :=
  if existsb isNaN args then NaN
  else fold_left (fun lowest n => if lt n lowest then n else lowest) args PosInf.

(** ToBoolean on numbers and on strings. *)
Definition truthy (a : number) : bool :=
  match a with
  | NaN => false
  | Fin q => bool_decide (q <> 0)
  | _ => true
  end.

Definition truthy_string (s : string) : bool :=
  bool_decide (s <> EmptyString).

(** [v || d] where [v] may be [undefined] or [null]. *)
Definition or_else (v : option number) (d : number) : number :=
  match v with
  | Some n => if truthy n then n else d
  | None => d
  end.

(** *** Objects used as dictionaries

    The names every plain object inherits from [Object.prototype]: eleven
    functions and the accessor [__proto__]. *)
Definition Object_prototype : list string :=
  ["constructor"; "__defineGetter__"; "__defineSetter__"; "hasOwnProperty";
   "__lookupGetter__"; "__lookupSetter__"; "isPrototypeOf";
   "propertyIsEnumerable"; "toString"; "valueOf"; "__proto__";
   "toLocaleString"].

(** What a read of a dictionary of strings can give: a string, or the
    member of [Object.prototype] of that name (a function, or the prototype
    itself for [__proto__]). *)
Inductive value : Type :=
| Str (s : string)
| Inherited (member : string).

#[export] Instance value_eq_dec : EqDecision value.
Proof. solve_decision. Defined.

(** [o[k]]: the own property, else the inherited member, else [undefined]. *)
Definition get (o : gmap string string) (k : string) : option value :=
  match o !! k with
  | Some s => Some (Str s)
  | None => if decide (k ∈ Object_prototype) then Some (Inherited k) else None
  end.

(** [o[k] = v] for a string [v]: the setter of [__proto__] ignores a string
    and no property is added; any other name becomes an own property. *)
Definition assign (o : gmap string string) (k v : string) : gmap string string :=
  if decide (k = "__proto__") then o else <[k := v]> o.

(** ToBoolean on a value read: functions and objects are truthy. *)
Definition truthy_value (v : value) : bool :=
  match v with
  | Str s => truthy_string s
  | Inherited _ => true
  end.

(** *** Strings *)

Definition lower_ascii (c : ascii) : ascii :=
  let n := nat_of_ascii c in
  if (65 <=? n)%nat && (n <=? 90)%nat then ascii_of_nat (n + 32) else c.

(** The letters A to Z folded, every other byte kept. *)
Fixpoint toLowerCase_ascii (s : string) : string :=
  match s with
  | EmptyString => EmptyString
  | String c r => String (lower_ascii c) (toLowerCase_ascii r)
  end.

(** A text of ASCII characters only. *)
Fixpoint isAscii (s : string) : bool :=
  match s with
  | EmptyString => true
  | String c r => (nat_of_ascii c <? 128)%nat && isAscii r
  end.

(** What is taken from the engine as it is.
    - [toLowerCase] is [String.prototype.toLowerCase], which folds every
      cased letter of Unicode. Two facts about it are used: on a text of
      ASCII characters it folds the letters A to Z and keeps the rest, and
      it never turns a non-empty text into the empty one.
    - [functionSource m] is the text [String(f)] of the built-in function
      [f] that plain objects inherit under the name [m]; its layout is left
      to the engine, and it is the name of no inherited member. *)
Class Engine : Type := {
  toLowerCase : string -> string;
  toLowerCase_isAscii :
    forall s, isAscii s = true -> toLowerCase s = toLowerCase_ascii s;
  toLowerCase_empty : forall s, toLowerCase s = EmptyString -> s = EmptyString;
  functionSource : string -> string;
  functionSource_fresh : forall m, functionSource m ∉ Object_prototype
}.

(** ToPropertyKey on a value read: a string is the key itself; an inherited
    function gives its source text and the prototype gives
    ["[object Object]"]. *)
Definition toPropertyKey `{Engine} (v : value) : string :=
  match v with
  | Str s => s
  | Inherited m =>
      if decide (m = "__proto__") then "[object Object]" else functionSource m
  end.

(** [s.length]: the number of UTF-16 code units of a text held as its
    UTF-8 bytes: none for a continuation byte, two for the first byte of a
    four-byte sequence, one for any other byte. *)
Definition units (c : ascii) : nat :=
  let n := nat_of_ascii c in
  if (n <? 128)%nat then 1%nat
  else if (n <? 192)%nat then 0%nat
  else if (n <? 240)%nat then 1%nat
  else 2%nat.

Fixpoint String_length (s : string) : nat :=
  match s with
  | EmptyString => 0%nat
  | String c r => (units c + String_length r)%nat
  end.

(** An engine for the closed examples. It folds the letters A to Z and the
    capital letters of Latin-1 (U+00C0 to U+00DE without the sign U+00D7,
    in UTF-8 the bytes C3 80 to C3 9E without C3 97), as every engine does,
    and keeps every other byte: the examples use no other cased letter. The
    text of a built-in function has the layout V8 gives it. *)
Fixpoint toLowerCase_latin1 (s : string) : string :=
  match s with
  | EmptyString => EmptyString
  | String c r =>
      if (nat_of_ascii c =? 195)%nat then
        match r with
        | String d r' =>
            let n := nat_of_ascii d in
            if (128 <=? n)%nat && (n <=? 158)%nat && negb (n =? 151)%nat
            then String c (String (ascii_of_nat (n + 32)) (toLowerCase_latin1 r'))
            else String c (toLowerCase_latin1 r)
        | EmptyString => String c EmptyString
        end
      else String (lower_ascii c) (toLowerCase_latin1 r)
  end.

#[global] Instance example_engine : Engine.
Proof.
  refine {| toLowerCase := toLowerCase_latin1;
            functionSource := fun m =>
              "function "
              +:+ (if decide (m = "constructor") then "Object" else m)
              +:+ "() { [native code] }" |}.
  - intros s. induction s as [|c r IH]; [reflexivity|].
    cbn [isAscii toLowerCase_latin1 toLowerCase_ascii].
    intros Hs. apply andb_prop in Hs as [Hc Hr].
    apply Nat.ltb_lt in Hc.
    destruct (nat_of_ascii c =? 195)%nat eqn:E;
      [apply Nat.eqb_eq in E; lia|].
    rewrite (IH Hr). reflexivity.
  - intros [|c r]; [reflexivity|]. cbn [toLowerCase_latin1].
    destruct (nat_of_ascii c =? 195)%nat; [|discriminate].
    destruct r as [|d r']; [discriminate|].
    destruct (_ && _); discriminate.
  - intros m Hin. unfold Object_prototype in Hin.
    repeat (apply elem_of_cons in Hin as [Heq | Hin]; [discriminate Heq|]).
    apply elem_of_nil in Hin. exact Hin.
Defined.

(** [s.includes(t)]. *)
Definition includes (s t : string) : bool :=
  match String.index 0 t s with Some _ => true | None => false end.

(** [Math.round(x)]: the nearest integer, a tie going up. *)
Definition Math_round (a : number) : number :=
  match a with
  | Fin q => of_Z (Qfloor (q + Q2Qc (1 # 2)))
  | _ => a
  end.

(** [v || d] where [v] is a string that may be [undefined]. *)
Definition or_else_string (v : option string) (d : string) : string :=
  match v with
  | Some s => if truthy_string s then s else d
  | None => d
  end.

(** [s.split(sep)] for a separator of one character: the pieces between
    the separators, at least one. *)
Fixpoint splitOn (sep : ascii) (s : string) : list string :=
  match s with
  | EmptyString => [EmptyString]
  | String c r =>
      if decide (c = sep) then EmptyString :: splitOn sep r
      else match splitOn sep r with
           | piece :: pieces => String c piece :: pieces
           | [] => [String c EmptyString]
           end
  end.

End JS.

Import JS.

(** ** The field record shared by the editor and the preview

    [interface TemplateField] is declared with the same shape in both
    components; an absent or [null] [max_width] is [None]. *)

Module Field.

Record t : Type := mk {
  id : string;
  field_key : string;
  label : string;
  x : number;
  y : number;
  font_size : number;
  font_family : string;
  font_color : string;
  text_align : string;
  max_width : option number
}.

End Field.

(** The token shown for a field without a value: [`{{${fieldKey}}}`]. *)
Definition placeholder (fieldKey : string) : string :=
  "{{" +:+ fieldKey +:+ "}}".

(** ** The canvas library: the props the components pass, and its stage
    transform *)

Module Konva.

Record Stage : Type := mkStage {
  stageWidth : number;
  stageHeight : number;
  scaleX : option number;
  scaleY : option number
}.

Record Text : Type := mkText {
  x : number;
  y : number;
  text : value;
  fontSize : number;
  fontFamily : string;
  fill : string;
  align : string;
  width : option number;
  draggable : bool;
  offsetX : option number;
  stroke : option string;
  strokeWidth : option number
}.

(** A scale that is not passed is 1. *)
Definition getScaleX (s : Stage) : number := default (of_Z 1) (scaleX s).
Definition getScaleY (s : Stage) : number := default (of_Z 1) (scaleY s).

(** Where a node of a layer appears on the display: the stage sits at the
    origin and carries the only transform, its scale. *)
Definition getAbsolutePosition (s : Stage) (n : Text) : number * number :=
  (mul (x n) (getScaleX s), mul (y n) (getScaleY s)).

End Konva.

(** ** The read-only preview ([CertificatePreview]) *)

Module CertificatePreview.

Record Template : Type := mkTemplate {
  id : string;
  name : string;
  image_url : string;
  image_width : number;
  image_height : number
}.

Record Props : Type := mkProps {
  template : option Template;
  templateFields : list Field.t;
  csvData : list (gmap string string);
  fieldMapping : gmap string string
}.

Record State : Type := mkState {
  previewIndex : Z;
  containerWidth : number
}.

(** [useState(0)] and [useState(800)]. *)
Definition initial : State := mkState 0 (of_Z 800).

(** [template?.image_width || 800] and [template?.image_height || 600]. *)
Definition templateWidth (p : Props) : number :=
  or_else (image_width <$> template p) (of_Z 800).

Definition templateHeight (p : Props) : number :=
  or_else (image_height <$> template p) (of_Z 600).

(** [Math.min(containerWidth / templateWidth, 0.9)]. *)
Definition scale (p : Props) (s : State) : number :=
  Math_min [div (containerWidth s) (templateWidth p); ratio 9 10].

Definition scaledWidth (p : Props) (s : State) : number :=
  mul (templateWidth p) (scale p s).

Definition scaledHeight (p : Props) (s : State) : number :=
  mul (templateHeight p) (scale p s).

(** [updateWidth]: [containerRef.current] is [None] while the dialog is not
    laid out, else it has an integer [offsetWidth]. *)
Definition updateWidth (offsetWidth : option Z) (s : State) : State :=
  match offsetWidth with
  | Some w => mkState (previewIndex s) (of_Z (w - 48))
  | None => s
  end.

(** [csvData[previewIndex] || {}]. *)
Definition currentRow (p : Props) (s : State) : gmap string string :=
  default ∅
    (if decide (0 <= previewIndex s)%Z
     then csvData p !! Z.to_nat (previewIndex s) else None).

(** [getFieldValue]: both reads are property reads, [fieldMapping[fieldKey]]
    and [currentRow[csvColumn]]. *)
Definition getFieldValue `{Engine} (p : Props) (s : State) (fieldKey : string)
  : value :=
  match get (fieldMapping p) fieldKey with
  | Some csvColumn =>
      if truthy_value csvColumn then
        match get (currentRow p s) (toPropertyKey csvColumn) with
        | Some v => if truthy_value v then v else Str (placeholder fieldKey)
        | None => Str (placeholder fieldKey)
        end
      else Str (placeholder fieldKey)
  | None => Str (placeholder fieldKey)
  end.

Definition handlePrev (s : State) : State :=
  mkState (Z.max 0 (previewIndex s - 1)) (containerWidth s).

Definition handleNext (p : Props) (s : State) : State :=
  mkState (Z.min (Z.of_nat (length (csvData p)) - 1) (previewIndex s + 1))
    (containerWidth s).

(** The record picker: [setPreviewIndex(Number(v))]. *)
Definition onValueChange (v : Z) (s : State) : State :=
  mkState v (containerWidth s).

(** The indices the picker offers: those of [csvData.slice(0, 20)]. *)
Definition pickerChoices (p : Props) : list Z :=
  Z.of_nat <$> seq 0 (Nat.min 20 (length (csvData p))).

(** The three controls that change the previewed record, and a session of
    such events. *)
Inductive Event : Type :=
| Previous
| Next
| Pick (v : Z).

Definition handle (p : Props) (s : State) (e : Event) : State :=
  match e with
  | Previous => handlePrev s
  | Next => handleNext p s
  | Pick v => onValueChange v s
  end.

Definition run (p : Props) (s : State) (events : list Event) : State :=
  fold_left (handle p) events s.

(** A pick is one of the choices the picker offers. *)
Definition offered (p : Props) (e : Event) : Prop :=
  match e with
  | Pick v => v ∈ pickerChoices p
  | _ => True
  end.

(** [field.max_width ? field.max_width * scale : undefined]. *)
Definition textWidth (f : Field.t) (sc : number) : option number :=
  match Field.max_width f with
  | Some m => if truthy m then Some (mul m sc) else None
  | None => None
  end.

Definition renderField `{Engine} (p : Props) (s : State) (f : Field.t)
  : Konva.Text :=
  Konva.mkText
    (mul (Field.x f) (scale p s))
    (mul (Field.y f) (scale p s))
    (getFieldValue p s (Field.field_key f))
    (mul (Field.font_size f) (scale p s))
    (Field.font_family f)
    (Field.font_color f)
    (Field.text_align f)
    (textWidth f (scale p s))
    false None None None.

(** What the component draws; [None] when there is no template. *)
Definition render `{Engine} (p : Props) (s : State)
  : option (Konva.Stage * list Konva.Text) :=
  match template p with
  | None => None
  | Some _ =>
      Some (Konva.mkStage (scaledWidth p s) (scaledHeight p s) None None,
            renderField p s <$> templateFields p)
  end.

(** The [disabled] props of the two navigation buttons. *)
Definition prevDisabled (s : State) : bool :=
  bool_decide (previewIndex s = 0%Z).

Definition nextDisabled (p : Props) (s : State) : bool :=
  bool_decide (Z.of_nat (length (csvData p)) - 1 <= previewIndex s)%Z.

End CertificatePreview.

(** ** The hosted backend

    The tables the pages write, and requests in the style of the client
    library: a request resolves to [{ data, error }] and never throws; a
    rejected request leaves the tables as they were. Columns the database
    fills in by itself (row timestamps, the ids of field and certificate
    rows) are left out. *)

Module Supabase.

Definition uuid : Type := string.
Definition Error : Type := string.

Record TemplateRow : Type := mkTemplateRow {
  t_id : uuid;
  t_user_id : uuid;
  t_name : string;
  t_description : string;
  t_image_url : string;
  t_image_width : number;
  t_image_height : number
}.

Record FieldRow : Type := mkFieldRow {
  f_template_id : uuid;
  f_field_key : string;
  f_label : string;
  f_x : number;
  f_y : number;
  f_font_size : number;
  f_font_family : string;
  f_font_color : string;
  f_text_align : string;
  f_max_width : option number
}.

Record BatchRow : Type := mkBatchRow {
  b_id : uuid;
  b_user_id : uuid;
  b_template_id : uuid;
  b_name : string;
  b_status : string;
  b_total_count : nat;
  b_generated_count : nat;
  b_sent_count : nat;
  b_failed_count : nat;
  b_csv_data : list (gmap string string)
}.

Record CertificateRow : Type := mkCertificateRow {
  c_batch_id : uuid;
  c_template_id : uuid;
  c_recipient_name : value;
  c_recipient_email : option value;
  c_recipient_data : gmap string string;
  c_email_status : string
}.

(** The backend: its tables, the number of requests received so far, the
    faults it will answer with ([faults k] is the error of request number
    [k], if any) and the ids [gen_random_uuid()] will draw. *)
Record Db : Type := mkDb {
  faults : nat -> option Error;
  uuids : nat -> uuid;
  requests : nat;
  drawn : nat;
  certificate_templates : list TemplateRow;
  template_fields : list FieldRow;
  batch_jobs : list BatchRow;
  certificates : list CertificateRow
}.

Definition set_requests (n : nat) (db : Db) : Db :=
  mkDb (faults db) (uuids db) n (drawn db) (certificate_templates db)
    (template_fields db) (batch_jobs db) (certificates db).

Definition set_drawn (n : nat) (db : Db) : Db :=
  mkDb (faults db) (uuids db) (requests db) n (certificate_templates db)
    (template_fields db) (batch_jobs db) (certificates db).

Definition set_certificate_templates (l : list TemplateRow) (db : Db) : Db :=
  mkDb (faults db) (uuids db) (requests db) (drawn db) l
    (template_fields db) (batch_jobs db) (certificates db).

Definition set_template_fields (l : list FieldRow) (db : Db) : Db :=
  mkDb (faults db) (uuids db) (requests db) (drawn db)
    (certificate_templates db) l (batch_jobs db) (certificates db).

Definition set_batch_jobs (l : list BatchRow) (db : Db) : Db :=
  mkDb (faults db) (uuids db) (requests db) (drawn db)
    (certificate_templates db) (template_fields db) l (certificates db).

Definition set_certificates (l : list CertificateRow) (db : Db) : Db :=
  mkDb (faults db) (uuids db) (requests db) (drawn db)
    (certificate_templates db) (template_fields db) (batch_jobs db) l.

(** An [async] function body: it runs against the backend and either
    returns or throws. *)
Inductive Completion (A : Type) : Type :=
| Return (a : A)
| Throw (e : Error).

Arguments Return {A} a.
Arguments Throw {A} e.

Definition Async (A : Type) : Type := Db -> Completion A * Db.

Definition ret {A} (a : A) : Async A := fun db => (Return a, db).

Definition throw {A} (e : Error) : Async A := fun db => (Throw e, db).

Definition bind {A B} (m : Async A) (k : A -> Async B) : Async B :=
  fun db =>
    match m db with
    | (Return a, db') => k a db'
    | (Throw e, db') => (Throw e, db')
    end.

(** [try { m } catch (error) { h error }]. *)
Definition try_catch {A} (m : Async A) (h : Error -> Async A) : Async A :=
  fun db =>
    match m db with
    | (Return a, db') => (Return a, db')
    | (Throw e, db') => h e db'
    end.

(** What a request resolves to. *)
Inductive Response (A : Type) : Type :=
| Data (data : A)
| Failed (error : Error).

Arguments Data {A} data.
Arguments Failed {A} error.

(** One awaited request: counted, then rejected or applied. *)
Definition request {A} (op : Db -> A * Db) : Async (Response A) :=
  fun db =>
    let db1 := set_requests (S (requests db)) db in
    match faults db (requests db) with
    | Some e => (Return (Failed e), db1)
    | None => let (a, db2) := op db1 in (Return (Data a), db2)
    end.

Definition gen_random_uuid (db : Db) : uuid * Db :=
  (uuids db (drawn db), set_drawn (S (drawn db)) db).

(** [from('certificate_templates').update(values).eq('id', id)]. *)
Definition update_template (id : uuid)
    (name description image_url : string) (image_width image_height : number)
  : Async (Response unit) :=
  request (fun db =>
    (tt, set_certificate_templates
           ((fun r => if decide (t_id r = id)
                      then mkTemplateRow (t_id r) (t_user_id r) name description
                             image_url image_width image_height
                      else r) <$> certificate_templates db) db)).

(** [from('certificate_templates').insert(values).select().single()]. *)
Definition insert_template (user_id : uuid)
    (name description image_url : string) (image_width image_height : number)
  : Async (Response TemplateRow) :=
  request (fun db =>
    let (id, db1) := gen_random_uuid db in
    let row := mkTemplateRow id user_id name description image_url
                 image_width image_height in
    (row, set_certificate_templates (certificate_templates db1 ++ [row]) db1)).

(** [from('template_fields').delete().eq('template_id', id)]. *)
Definition delete_fields (id : uuid) : Async (Response unit) :=
  request (fun db =>
    (tt, set_template_fields
           (filter (fun r => f_template_id r <> id) (template_fields db)) db)).

(** [from('template_fields').insert(rows)]. *)
Definition insert_fields (rows : list FieldRow) : Async (Response unit) :=
  request (fun db =>
    (tt, set_template_fields (template_fields db ++ rows) db)).

(** [from('batch_jobs').insert(values).select().single()]; the counters
    that are not given take the column default 0. *)
Definition insert_batch (user_id template_id : uuid) (name status : string)
    (total_count : nat) (csv_data : list (gmap string string))
  : Async (Response BatchRow) :=
  request (fun db =>
    let (id, db1) := gen_random_uuid db in
    let row := mkBatchRow id user_id template_id name status total_count
                 0 0 0 csv_data in
    (row, set_batch_jobs (batch_jobs db1 ++ [row]) db1)).

(** [from('batch_jobs').update({ status, generated_count }).eq('id', id)]. *)
Definition update_batch (id : uuid) (status : string) (generated_count : nat)
  : Async (Response unit) :=
  request (fun db =>
    (tt, set_batch_jobs
           ((fun r => if decide (b_id r = id)
                      then mkBatchRow (b_id r) (b_user_id r) (b_template_id r)
                             (b_name r) status (b_total_count r)
                             generated_count (b_sent_count r)
                             (b_failed_count r) (b_csv_data r)
                      else r) <$> batch_jobs db) db)).

(** [from('certificates').insert(row)]. *)
Definition insert_certificate (row : CertificateRow) : Async (Response unit) :=
  request (fun db => (tt, set_certificates (certificates db ++ [row]) db)).

(** What [from('batch_jobs').select()] shows to a user: the policy
    "Users can view own batch jobs" keeps the rows with [user_id] the
    user's. *)
Definition visible_batch_jobs (uid : uuid) (db : Db) : list BatchRow :=
  filter (fun b => b_user_id b = uid) (batch_jobs db).

(** The signed-in user ([useAuth]). *)
Record User : Type := mkUser { user_id : uuid }.

(** The monad notations [x ← m; k] and [mret]. *)
#[global] Instance Async_ret : MRet Async := @ret.
#[global] Instance Async_bind : MBind Async := fun A B k m => bind m k.

End Supabase.

(** ** The template editor ([TemplateEditor]): working set and canvas *)

Module TemplateEditor.

Record Dimensions : Type := mkDimensions {
  width : number;
  height : number
}.

(** [Partial<TemplateField>]: each attribute is present or absent. *)
Record Partial : Type := mkPartial {
  id : option string;
  field_key : option string;
  label : option string;
  x : option number;
  y : option number;
  font_size : option number;
  font_family : option string;
  font_color : option string;
  text_align : option string;
  max_width : option (option number)
}.

(** [{ ...f, ...updates }]. *)
Definition spread (f : Field.t) (updates : Partial) : Field.t :=
  Field.mk
    (default (Field.id f) (id updates))
    (default (Field.field_key f) (field_key updates))
    (default (Field.label f) (label updates))
    (default (Field.x f) (x updates))
    (default (Field.y f) (y updates))
    (default (Field.font_size f) (font_size updates))
    (default (Field.font_family f) (font_family updates))
    (default (Field.font_color f) (font_color updates))
    (default (Field.text_align f) (text_align updates))
    (default (Field.max_width f) (max_width updates)).

Record State : Type := mkState {
  imageDimensions : Dimensions;
  fields : list Field.t;
  selectedFieldId : option string
}.

(** [useState({ width: 800, height: 600 })], [useState([])],
    [useState(null)]. *)
Definition initial : State :=
  mkState (mkDimensions (of_Z 800) (of_Z 600)) [] None.

Definition updateField (fieldId : string) (updates : Partial) (st : State)
  : State :=
  mkState (imageDimensions st)
    ((fun f => if decide (Field.id f = fieldId) then spread f updates else f)
       <$> fields st)
    (selectedFieldId st).

Definition removeField (fieldId : string) (st : State) : State :=
  mkState (imageDimensions st)
    (filter (fun f => Field.id f <> fieldId) (fields st))
    (if decide (selectedFieldId st = Some fieldId) then None
     else selectedFieldId st).

(** [handleDragEnd(fieldId, e)] with [e.target] the dragged node. *)
Definition handleDragEnd (fieldId : string) (target : Konva.Text) (st : State)
  : State :=
  updateField fieldId
    (mkPartial None None None (Some (Konva.x target)) (Some (Konva.y target))
       None None None None None)
    st.

Definition maxWidth : number := of_Z 800.
Definition maxHeight : number := of_Z 500.

(** The two quotients the scale is taken from. *)
Definition widthRatio (st : State) : number :=
  div maxWidth (width (imageDimensions st)).

Definition heightRatio (st : State) : number :=
  div maxHeight (height (imageDimensions st)).

(** [Math.min(maxWidth / imageDimensions.width,
              maxHeight / imageDimensions.height, 1)]. *)
Definition scale (st : State) : number :=
  Math_min [widthRatio st; heightRatio st; of_Z 1].

Definition stage (st : State) : Konva.Stage :=
  Konva.mkStage
    (mul (width (imageDimensions st)) (scale st))
    (mul (height (imageDimensions st)) (scale st))
    (Some (scale st)) (Some (scale st)).

Definition offsetX (f : Field.t) : number :=
  if decide (Field.text_align f = "center") then
    mul (mul (Field.font_size f) (of_nat (String_length (Field.field_key f))))
      (ratio 3 10)
  else if decide (Field.text_align f = "right") then
    mul (mul (Field.font_size f) (of_nat (String_length (Field.field_key f))))
      (ratio 6 10)
  else of_Z 0.

Definition renderField (st : State) (f : Field.t) : Konva.Text :=
  let selected := bool_decide (selectedFieldId st = Some (Field.id f)) in
  Konva.mkText
    (Field.x f)
    (Field.y f)
    (Str (placeholder (Field.field_key f)))
    (Field.font_size f)
    (Field.font_family f)
    (Field.font_color f)
    (Field.text_align f)
    None
    true
    (Some (offsetX f))
    (if selected then Some "#6366f1" else None)
    (Some (if selected then of_Z 2 else of_Z 0)).

Definition render (st : State) : Konva.Stage * list Konva.Text :=
  (stage st, renderField st <$> fields st).

(** *** Adding and selecting fields *)

Record Preset : Type := mkPreset {
  key : string;
  presetLabel : string
}.

(** [addField(preset?)]; [now] is [Date.now()], a count of milliseconds. *)
Definition newField (now : N) (preset : option Preset) (st : State) : Field.t :=
  Field.mk
    ("temp-" +:+ pretty now)
    (or_else_string (key <$> preset) "custom")
    (or_else_string (presetLabel <$> preset) "Custom Field")
    (div (width (imageDimensions st)) (of_Z 2))
    (div (height (imageDimensions st)) (of_Z 2))
    (of_Z 32) "Arial" "#000000" "center" None.

Definition addField (now : N) (preset : option Preset) (st : State) : State :=
  mkState (imageDimensions st)
    (fields st ++ [newField now preset st])
    (Some (Field.id (newField now preset st))).

Definition setSelectedFieldId (v : option string) (st : State) : State :=
  mkState (imageDimensions st) (fields st) v.

(** [fields.find(f => f.id === selectedFieldId)]: the field shown in the
    property panel. *)
Definition selectedField (st : State) : option Field.t :=
  match selectedFieldId st with
  | Some i => find (fun f => bool_decide (Field.id f = i)) (fields st)
  | None => None
  end.

(** What the user can do on the editor canvas and its side panels. *)
Inductive Event : Type :=
| AddField (now : N) (preset : option Preset)
| UpdateField (fieldId : string) (updates : Partial)
| RemoveField (fieldId : string)
| SelectField (fieldId : string)
| MouseDownOnStage
| DragEnd (fieldId : string) (target : Konva.Text).

Definition handle (st : State) (e : Event) : State :=
  match e with
  | AddField now preset => addField now preset st
  | UpdateField fieldId updates => updateField fieldId updates st
  | RemoveField fieldId => removeField fieldId st
  | SelectField fieldId => setSelectedFieldId (Some fieldId) st
  | MouseDownOnStage => setSelectedFieldId None st
  | DragEnd fieldId target => handleDragEnd fieldId target st
  end.

(** The events the page can produce in a state: a field is clicked,
    dragged or removed through its own label or list entry, and the
    property panel never edits the id of a field. *)
Definition possible (st : State) (e : Event) : Prop :=
  match e with
  | AddField _ _ => True
  | UpdateField _ updates => id updates = None
  | RemoveField fieldId => fieldId ∈ Field.id <$> fields st
  | SelectField fieldId => fieldId ∈ Field.id <$> fields st
  | MouseDownOnStage => True
  | DragEnd fieldId _ => fieldId ∈ Field.id <$> fields st
  end.

Fixpoint session (st : State) (events : list Event) : Prop :=
  match events with
  | [] => True
  | e :: rest => possible st e /\ session (handle st e) rest
  end.

Definition run (st : State) (events : list Event) : State :=
  fold_left handle events st.

(** *** Choosing the image ([handleImageUpload]) *)

(** [file.name.split('.').pop()]. *)
Definition fileExt (fileName : string) : option string :=
  last (splitOn "." fileName).

(** *** Saving ([saveMutation]) *)

(** The rest of the component state that a save reads: the signed-in user,
    the route parameter [id] and the template details. *)
Record Form : Type := mkForm {
  user : option Supabase.User;
  routeId : option string;
  templateName : string;
  templateDescription : string;
  imageUrl : string
}.

(** The row inserted for a field. *)
Definition fieldRow (templateId : Supabase.uuid) (f : Field.t)
  : Supabase.FieldRow :=
  Supabase.mkFieldRow templateId (Field.field_key f) (Field.label f)
    (Field.x f) (Field.y f) (Field.font_size f) (Field.font_family f)
    (Field.font_color f) (Field.text_align f) (Field.max_width f).

(** [isEditMode && id]: the id of the template being edited, if any. *)
Definition editedId (form : Form) : option Supabase.uuid :=
  match routeId form with
  | Some id => if truthy_string id then Some id else None
  | None => None
  end.

Definition mutationFn (form : Form) (st : State) : Supabase.Async Supabase.uuid :=
  match user form with
  | None => Supabase.throw "Missing required fields"
  | Some u =>
      if negb (truthy_string (imageUrl form))
         || negb (truthy_string (templateName form))
      then Supabase.throw "Missing required fields"
      else
        templateId ←
          match editedId form with
          | Some id =>
              r ← Supabase.update_template id (templateName form)
                    (templateDescription form) (imageUrl form)
                    (width (imageDimensions st)) (height (imageDimensions st));
              match r with
              | Supabase.Failed error => Supabase.throw error
              | Supabase.Data _ =>
                  (* the answer to the delete is not looked at *)
                  _ ← Supabase.delete_fields id;
                  mret id
              end
          | None =>
              r ← Supabase.insert_template (Supabase.user_id u)
                    (templateName form) (templateDescription form)
                    (imageUrl form)
                    (width (imageDimensions st)) (height (imageDimensions st));
              match r with
              | Supabase.Failed error => Supabase.throw error
              | Supabase.Data data => mret (Supabase.t_id data)
              end
          end;
        if (0 <? length (fields st))%nat && truthy_string templateId then
          r ← Supabase.insert_fields (fieldRow templateId <$> fields st);
          match r with
          | Supabase.Failed fieldsError => Supabase.throw fieldsError
          | Supabase.Data _ => mret templateId
          end
        else mret templateId
  end.

(** The fields the backend holds for a template. *)
Definition persistedFields (templateId : Supabase.uuid) (db : Supabase.Db)
  : list Supabase.FieldRow :=
  filter (fun r => Supabase.f_template_id r = templateId)
    (Supabase.template_fields db).

End TemplateEditor.

(** ** The generation page ([Generate]) *)

Module Generate.

(** A template as the templates query returns it: its row and, nested,
    its rows of [template_fields]. *)
Record TemplateRecord : Type := mkTemplateRecord {
  template : CertificatePreview.Template;
  template_fields : option (list Field.t)
}.

Record Props : Type := mkProps {
  user : option Supabase.User;
  templates : option (list TemplateRecord)
}.

Record State : Type := mkState {
  step : nat;
  selectedTemplateId : string;
  csvData : list (gmap string string);
  csvHeaders : list string;
  fieldMapping : gmap string string;
  sendEmails : bool;
  emailColumn : string
}.

(** [searchParams.get('template') || ''] and the other initial values. *)
Definition initial (templateParam : option string) : State :=
  mkState 1 (default "" templateParam) [] [] ∅ true "email".

(** [templates?.find(t => t.id === selectedTemplateId)]. *)
Definition selectedTemplate (p : Props) (st : State) : option TemplateRecord :=
  templates p ≫=
    find (fun t => bool_decide
                     (CertificatePreview.id (template t) = selectedTemplateId st)).

(** [selectedTemplate?.template_fields || []]. *)
Definition templateFields (p : Props) (st : State) : list Field.t :=
  default [] (selectedTemplate p st ≫= template_fields).

(** What the CSV parser hands to [complete]: the rows and [meta.fields]. *)
Record ParseResult : Type := mkParseResult {
  data : list (gmap string string);
  fields : option (list string)
}.

(** The auto-mapping loop of [handleCsvUpload]; the mapping is filled by
    assignments [mapping[field.field_key] = matchingHeader]. *)
Definition autoMap `{Engine} (templateFields : list Field.t)
    (headers : list string) : gmap string string :=
  fold_left
    (fun mapping field =>
       match find (fun h => bool_decide
                              (toLowerCase h = toLowerCase (Field.field_key field)))
               headers with
       | Some matchingHeader =>
           if truthy_string matchingHeader
           then assign mapping (Field.field_key field) matchingHeader
           else mapping
       | None => mapping
       end)
    templateFields ∅.

Definition handleCsvUpload `{Engine} (p : Props) (results : ParseResult)
    (st : State) : State :=
  let headers := default [] (fields results) in
  let emailHeader := find (fun h => includes (toLowerCase h) "email") headers in
  mkState 3 (selectedTemplateId st) (data results) headers
    (autoMap (templateFields p st) headers)
    (sendEmails st)
    (match emailHeader with
     | Some h => if truthy_string h then h else emailColumn st
     | None => emailColumn st
     end).

(** The certificate record written for a row. [fieldMapping.name] reads
    the own property only, since no object inherits a member called
    [name]; [row[...]] is a property read on the row. *)
Definition certificateRow (batchId : Supabase.uuid) (st : State)
    (row : gmap string string) : Supabase.CertificateRow :=
  let nameColumn :=
    match fieldMapping st !! "name" with
    | Some c => if truthy_string c then c else "name"
    | None => "name"
    end in
  Supabase.mkCertificateRow batchId (selectedTemplateId st)
    (match get row nameColumn with
     | Some v => if truthy_value v then v else Str "Unknown"
     | None => Str "Unknown"
     end)
    (if sendEmails st then get row (emailColumn st) else None)
    row
    "pending".

(** The [for] loop: one awaited insert per row, in order; the answers are
    not looked at. *)
Fixpoint insertCertificates (batchId : Supabase.uuid) (st : State)
    (rows : list (gmap string string)) : Supabase.Async unit :=
  match rows with
  | [] => mret tt
  | row :: rest =>
      _ ← Supabase.insert_certificate (certificateRow batchId st row);
      insertCertificates batchId st rest
  end.

Definition setStep (n : nat) (st : State) : State :=
  mkState n (selectedTemplateId st) (csvData st) (csvHeaders st)
    (fieldMapping st) (sendEmails st) (emailColumn st).

(** [handleGenerate]; [today] is [new Date().toLocaleDateString()]. The
    progress bar and the notifications are not part of the state here. *)
Definition handleGenerate (today : string) (p : Props) (st : State)
  : Supabase.Async State :=
  match selectedTemplate p st with
  | None => mret st
  | Some t =>
      if decide (length (csvData st) = 0%nat) then mret st
      else
        Supabase.try_catch
          (match user p with
           | None => Supabase.throw "TypeError"
           | Some u =>
               r ← Supabase.insert_batch (Supabase.user_id u)
                     (selectedTemplateId st)
                     (CertificatePreview.name (template t) +:+ " - " +:+ today)
                     "processing" (length (csvData st)) (csvData st);
               match r with
               | Supabase.Failed batchError => Supabase.throw batchError
               | Supabase.Data batch =>
                   _ ← insertCertificates (Supabase.b_id batch) st (csvData st);
                   _ ← Supabase.update_batch (Supabase.b_id batch) "completed"
                         (length (csvData st));
                   mret (setStep 4 st)
               end
           end)
          (fun error => mret st)
  end.

(** [Math.round(((i + 1) / csvData.length) * 100)]: the progress shown
    after the row of index [i]. *)
Definition generationProgress (i : nat) (st : State) : number :=
  Math_round
    (mul (div (of_nat (i + 1)) (of_nat (length (csvData st)))) (of_Z 100)).

(** The mapping select of a field: [{ ...fieldMapping, [field_key]: v }]. *)
Definition onValueChange (fieldKey v : string) (st : State) : State :=
  mkState (step st) (selectedTemplateId st) (csvData st) (csvHeaders st)
    (<[fieldKey := v]> (fieldMapping st)) (sendEmails st) (emailColumn st).

Definition setSelectedTemplateId (v : string) (st : State) : State :=
  mkState (step st) v (csvData st) (csvHeaders st) (fieldMapping st)
    (sendEmails st) (emailColumn st).

Definition setSendEmails (c : bool) (st : State) : State :=
  mkState (step st) (selectedTemplateId st) (csvData st) (csvHeaders st)
    (fieldMapping st) c (emailColumn st).

Definition setEmailColumn (v : string) (st : State) : State :=
  mkState (step st) (selectedTemplateId st) (csvData st) (csvHeaders st)
    (fieldMapping st) (sendEmails st) v.

(** The "Generate More" button of the last step. *)
Definition generateMore (st : State) : State :=
  mkState 1 "" [] [] ∅ (sendEmails st) (emailColumn st).

(** The state [handleGenerate] leaves, whether it returned or threw. *)
Definition afterGenerate (today : string) (p : Props) (st : State)
    (db : Supabase.Db) : State :=
  match (handleGenerate today p st db).1 with
  | Supabase.Return st' => st'
  | Supabase.Throw _ => st
  end.

(** What the user can do on the page, step by step. *)
Inductive Event : Type :=
| SelectTemplate (id : string)
| Continue
| BackToTemplate
| Upload (results : ParseResult)
| BackToUpload
| MapField (fieldKey v : string)
| CheckSendEmails (c : bool)
| SelectEmailColumn (v : string)
| Generate (today : string) (db : Supabase.Db)
| GenerateMore.

Definition handle `{Engine} (p : Props) (st : State) (e : Event) : State :=
  match e with
  | SelectTemplate id => setSelectedTemplateId id st
  | Continue => setStep 2 st
  | BackToTemplate => setStep 1 st
  | Upload results => handleCsvUpload p results st
  | BackToUpload => setStep 2 st
  | MapField fieldKey v => onValueChange fieldKey v st
  | CheckSendEmails c => setSendEmails c st
  | SelectEmailColumn v => setEmailColumn v st
  | Generate today db => afterGenerate today p st db
  | GenerateMore => generateMore st
  end.

(** Each control is drawn in one step only; "Continue" is disabled without
    a template id, and the selects offer the headers of the loaded file. *)
Definition possible (st : State) (e : Event) : Prop :=
  match e with
  | SelectTemplate _ => step st = 1%nat
  | Continue => step st = 1%nat /\ selectedTemplateId st <> ""
  | BackToTemplate => step st = 2%nat
  | Upload _ => step st = 2%nat
  | BackToUpload => step st = 3%nat
  | MapField _ v => step st = 3%nat /\ v ∈ csvHeaders st
  | CheckSendEmails _ => step st = 3%nat
  | SelectEmailColumn v =>
      step st = 3%nat /\ sendEmails st = true /\ v ∈ csvHeaders st
  | Generate _ _ => step st = 3%nat
  | GenerateMore => step st = 4%nat
  end.

Fixpoint session `{Engine} (p : Props) (st : State) (events : list Event)
  : Prop :=
  match events with
  | [] => True
  | e :: rest => possible st e /\ session p (handle p st e) rest
  end.

Definition run `{Engine} (p : Props) (st : State) (events : list Event)
  : State :=
  fold_left (handle p) events st.

(** The props the page passes to the preview. *)
Definition previewProps (p : Props) (st : State) : CertificatePreview.Props :=
  CertificatePreview.mkProps (template <$> selectedTemplate p st)
    (templateFields p st) (csvData st) (fieldMapping st).

End Generate.

(** ** The dashboard ([Dashboard]): totals over the batches *)

Module Dashboard.

Record Stats : Type := mkStats {
  templates : nat;
  totalGenerated : nat;
  totalSent : nat;
  totalFailed : nat;
  recentBatches : list Supabase.BatchRow
}.

(** The value the statistics query computes from its three answers: the
    template count and the rows of [batch_jobs], each missing when its
    request failed ([count || 0], [data || []]). *)
Definition stats (count : option nat) (data : option (list Supabase.BatchRow))
  : Stats :=
  let batches := default [] data in
  mkStats
    (default 0%nat count)
    (fold_left (fun acc b => (acc + Supabase.b_generated_count b)%nat) batches 0%nat)
    (fold_left (fun acc b => (acc + Supabase.b_sent_count b)%nat) batches 0%nat)
    (fold_left (fun acc b => (acc + Supabase.b_failed_count b)%nat) batches 0%nat)
    (take 5 batches).

End Dashboard.

(** ** The history page ([History]): progress of a batch *)

Module History.

(** [total_count > 0 ? Math.round((generated_count / total_count) * 100) : 0]. *)
Definition progress (batch : Supabase.BatchRow) : number :=
  if (0 <? Supabase.b_total_count batch)%nat then
    Math_round
      (mul (div (of_nat (Supabase.b_generated_count batch))
                (of_nat (Supabase.b_total_count batch)))
         (of_Z 100))
  else of_Z 0.

(** The progress bar is drawn for a batch that is processing. *)
Definition showsProgress (batch : Supabase.BatchRow) : bool :=
  bool_decide (Supabase.b_status batch = "processing").

End History.

(** ** The scale formula of the specification *)

Module Spec.

Definition Qcmin (a b : Qc) : Qc := if decide (a <= b) then a else b.

Definition Qc_of_Z (z : Z) : Qc := Q2Qc (inject_Z z).

(** [min(availableWidth / nativeWidth, availableHeight / nativeHeight, cap)]
    for positive dimensions. *)
Definition scale (AW AH W H cap : Qc) : Qc :=
  Qcmin (Qcmin (AW / W) (AH / H)) cap.

(** The first header whose name equals the field key, compared without
    regard to case. *)
Definition firstMatch `{Engine} (headers : list string) (fieldKey : string)
  : option string :=
  find (fun h => bool_decide (toLowerCase h = toLowerCase fieldKey)) headers.

(** The elements of a list whose request is accepted, when the requests
    are numbered from [k] on. *)
Fixpoint accepted {A} (faults : nat -> option Supabase.Error) (k : nat)
    (l : list A) : list A :=
  match l with
  | [] => []
  | a :: rest =>
      match faults k with
      | None => a :: accepted faults (S k) rest
      | Some _ => accepted faults (S k) rest
      end
  end.

(** An attribute after a partial update: the update's value when it
    carries one, the old value otherwise. *)
Definition updated {A} (old new : A) (u : option A) : Prop :=
  match u with
  | Some v => new = v
  | None => new = old
  end.

End Spec.

(** * Properties *)

(** ** Numbers *)

(** Closes a goal that follows from the order facts on rationals at hand. *)
Ltac qc_order := unfold Qclt, Qcle in *; simpl in *; lra.

Section Numbers.

Lemma Qcmin_le_l a b : Spec.Qcmin a b <= a.
Proof. unfold Spec.Qcmin. case_decide; qc_order. Qed.

Lemma Qcmin_le_r a b : Spec.Qcmin a b <= b.
Proof. unfold Spec.Qcmin. case_decide; qc_order. Qed.

Lemma Qcmin_pos a b : 0 < a -> 0 < b -> 0 < Spec.Qcmin a b.
Proof. unfold Spec.Qcmin. case_decide; auto. Qed.

Lemma Math_min_Fin2 a b :
  Math_min [Fin a; Fin b] = Fin (Spec.Qcmin a b).
Proof.
  unfold Math_min, Spec.Qcmin; simpl.
  repeat (case_bool_decide || case_decide);
    try reflexivity; exfalso; qc_order.
Qed.

Lemma Math_min_Fin3 a b c :
  Math_min [Fin a; Fin b; Fin c] = Fin (Spec.Qcmin (Spec.Qcmin a b) c).
Proof.
  unfold Math_min, Spec.Qcmin; simpl.
  repeat (case_bool_decide || case_decide);
    try reflexivity; exfalso; qc_order.
Qed.

(** [+Infinity] never wins a minimum that has a finite candidate. *)
Lemma Math_min_PosInf_l b c : Math_min [PosInf; Fin b; Fin c] = Math_min [Fin b; Fin c].
Proof. reflexivity. Qed.

Lemma Math_min_PosInf_m a c : Math_min [Fin a; PosInf; Fin c] = Math_min [Fin a; Fin c].
Proof. reflexivity. Qed.

Lemma Math_min_PosInf_lm c : Math_min [PosInf; PosInf; Fin c] = Fin c.
Proof. reflexivity. Qed.

Lemma mul_1_r a : mul a (of_Z 1) = a.
Proof.
  destruct a; simpl; try reflexivity.
  f_equal. apply Qcmult_1_r.
Qed.

Lemma div_Fin_pos a b : 0 < b -> div (Fin a) (Fin b) = Fin (a / b).
Proof.
  intros Hb. simpl. case_decide as H0; [subst; exfalso; qc_order|]. reflexivity.
Qed.

Lemma div_pos_zero a : 0 < a -> div (Fin a) (Fin 0) = PosInf.
Proof.
  intros Ha. simpl.
  case_decide as H1; [subst; exfalso; qc_order|].
  rewrite bool_decide_eq_false_2 by qc_order. reflexivity.
Qed.

Lemma Qcdiv_pos a b : 0 < a -> 0 < b -> 0 < a / b.
Proof.
  intros Ha Hb. unfold Qcdiv. apply Qcmult_pos_pos; [exact Ha|].
  apply Qcinv_pos. exact Hb.
Qed.

Lemma truthy_or_else v d : truthy d = true -> truthy (or_else v d) = true.
Proof.
  intros Hd. destruct v as [n|]; simpl; [|exact Hd].
  destruct (truthy n) eqn:E; [exact E | exact Hd].
Qed.

(** A finite number over a truthy one is finite. *)
Lemma div_Fin_truthy a b : truthy b = true -> exists q, div (Fin a) b = Fin q.
Proof.
  destruct b as [| |y|]; simpl; intros Hb; try discriminate; eauto.
  case_bool_decide as Hy; [|discriminate].
  case_decide; [contradiction|]. eauto.
Qed.

End Numbers.

(** ** The scale calculator *)

Section ScaleCalculator.

Import CertificatePreview.

Lemma templateWidth_truthy p : truthy (templateWidth p) = true.
Proof. apply truthy_or_else. reflexivity. Qed.

Lemma templateHeight_truthy p : truthy (templateHeight p) = true.
Proof. apply truthy_or_else. reflexivity. Qed.

Lemma templateWidth_positive p t W :
  template p = Some t -> image_width t = Fin W -> 0 < W ->
  templateWidth p = Fin W.
Proof.
  intros Ht HW Hpos. unfold templateWidth. rewrite Ht. simpl. rewrite HW. simpl.
  rewrite bool_decide_eq_true_2; [reflexivity|].
  intros ->. qc_order.
Qed.

(** C1 (counterexample). A portrait template of 800 x 2000 in a preview
    whose container is 800 wide: the preview scale is 0.9 whatever height
    is available, while [min(AW/W, AH/H, 0.9)] with an available height of
    600 is 0.3. The preview has no height term. *)
Lemma C1_preview_scale_ignores_height :
  let p := mkProps
             (Some (mkTemplate "t" "Tall" "url" (of_Z 800) (of_Z 2000)))
             [] [] ∅ in
  let s := mkState 0 (of_Z 800) in
  scale p s = ratio 9 10 /\
  scale p s <> Fin (Spec.scale (Spec.Qc_of_Z 800) (Spec.Qc_of_Z 600)
                      (Spec.Qc_of_Z 800) (Spec.Qc_of_Z 2000) (Q2Qc (9 # 10))).
Proof. split; compute_done. Qed.

(** C1 (corrected statement). For native dimensions W, H > 0: the editor scale
    is [min(800/W, 500/H, 1)], its available area being the fixed 800 x 500;
    the preview scale is [min(AW/W, 0.9)] for a container width AW > 0,
    whatever the native height, and has no height term. *)
Theorem C1_scale_formula (W H AW : Qc) (ed : TemplateEditor.State)
    (p : Props) (s : State) (t : Template) :
  0 < W -> 0 < H -> 0 < AW ->
  TemplateEditor.imageDimensions ed = TemplateEditor.mkDimensions (Fin W) (Fin H) ->
  template p = Some t -> image_width t = Fin W ->
  containerWidth s = Fin AW ->
  TemplateEditor.scale ed
    = Fin (Spec.scale (Spec.Qc_of_Z 800) (Spec.Qc_of_Z 500) W H (Spec.Qc_of_Z 1))
  /\ scale p s = Fin (Spec.Qcmin (AW / W) (Q2Qc (9 # 10))).
Proof.
  intros HW HH HAW Hdim Ht Hw Hcw. split.
  - unfold TemplateEditor.scale, TemplateEditor.widthRatio,
      TemplateEditor.heightRatio. rewrite Hdim. simpl TemplateEditor.width.
    simpl TemplateEditor.height.
    unfold TemplateEditor.maxWidth, TemplateEditor.maxHeight, of_Z.
    rewrite !div_Fin_pos by assumption. apply Math_min_Fin3.
  - unfold scale. rewrite (templateWidth_positive p t W Ht Hw HW), Hcw.
    rewrite div_Fin_pos by assumption. apply Math_min_Fin2.
Qed.

Lemma C1_scale_formula_witness :
  TemplateEditor.scale
    (TemplateEditor.mkState
       (TemplateEditor.mkDimensions (of_Z 1600) (of_Z 600)) [] None)
    = Fin (Spec.scale (Spec.Qc_of_Z 800) (Spec.Qc_of_Z 500)
             (Spec.Qc_of_Z 1600) (Spec.Qc_of_Z 600) (Spec.Qc_of_Z 1))
  /\ scale
       (mkProps (Some (mkTemplate "t" "Wide" "url" (of_Z 1600) (of_Z 600)))
          [] [] ∅)
       (mkState 0 (of_Z 800))
     = Fin (Spec.Qcmin (Spec.Qc_of_Z 800 / Spec.Qc_of_Z 1600) (Q2Qc (9 # 10))).
Proof.
  apply (C1_scale_formula (Spec.Qc_of_Z 1600) (Spec.Qc_of_Z 600)
           (Spec.Qc_of_Z 800) _ _ _
           (mkTemplate "t" "Wide" "url" (of_Z 1600) (of_Z 600)));
    reflexivity.
Defined.

Lemma editor_scale_finite W H fields sel :
  0 <= W -> 0 <= H ->
  exists q,
    TemplateEditor.scale
      (TemplateEditor.mkState (TemplateEditor.mkDimensions (Fin W) (Fin H))
         fields sel) = Fin q
    /\ 0 < q /\ q <= Spec.Qc_of_Z 1.
Proof.
  intros HW HH.
  assert (P800 : 0 < Q2Qc (inject_Z 800)) by reflexivity.
  assert (P500 : 0 < Q2Qc (inject_Z 500)) by reflexivity.
  assert (P1 : 0 < Spec.Qc_of_Z 1) by reflexivity.
  unfold TemplateEditor.scale, TemplateEditor.widthRatio,
    TemplateEditor.heightRatio, TemplateEditor.maxWidth,
    TemplateEditor.maxHeight, of_Z.
  simpl TemplateEditor.imageDimensions. simpl TemplateEditor.width.
  simpl TemplateEditor.height.
  destruct (decide (W = 0)) as [->|HW0], (decide (H = 0)) as [->|HH0].
  - rewrite !div_pos_zero by assumption. rewrite Math_min_PosInf_lm.
    eexists; split; [reflexivity|]. split; [reflexivity|]. qc_order.
  - assert (0 < H) by (apply Qcle_lt_or_eq in HH as [|]; congruence).
    rewrite div_pos_zero, div_Fin_pos by assumption.
    rewrite Math_min_PosInf_l, Math_min_Fin2.
    eexists; split; [reflexivity|]. split.
    + apply Qcmin_pos; [apply Qcdiv_pos|]; assumption.
    + apply Qcmin_le_r.
  - assert (0 < W) by (apply Qcle_lt_or_eq in HW as [|]; congruence).
    rewrite div_pos_zero, div_Fin_pos by assumption.
    rewrite Math_min_PosInf_m, Math_min_Fin2.
    eexists; split; [reflexivity|]. split.
    + apply Qcmin_pos; [apply Qcdiv_pos|]; assumption.
    + apply Qcmin_le_r.
  - assert (0 < W) by (apply Qcle_lt_or_eq in HW as [|]; congruence).
    assert (0 < H) by (apply Qcle_lt_or_eq in HH as [|]; congruence).
    rewrite !div_Fin_pos by assumption. rewrite Math_min_Fin3.
    eexists; split; [reflexivity|]. split.
    + repeat apply Qcmin_pos; try apply Qcdiv_pos; assumption.
    + apply Qcmin_le_r.
Qed.

Lemma preview_scale_finite p s cw :
  containerWidth s = Fin cw ->
  exists q, scale p s = Fin q /\ q <= Q2Qc (9 # 10).
Proof.
  intros Hcw. unfold scale. rewrite Hcw.
  destruct (div_Fin_truthy cw (templateWidth p) (templateWidth_truthy p))
    as [q ->].
  unfold ratio. rewrite Math_min_Fin2.
  eexists; split; [reflexivity|]. apply Qcmin_le_r.
Qed.

(** C9 (counterexample). With a native width of 0 the editor divides by
    that zero: the width quotient is [+Infinity], no fallback is
    substituted, and the scale still follows the native height (0.5 for a
    height of 1000, 0.25 for a height of 2000). *)
Lemma C9_editor_divides_by_zero_width :
  let ed := fun h =>
    TemplateEditor.mkState
      (TemplateEditor.mkDimensions (of_Z 0) (of_Z h)) [] None in
  TemplateEditor.widthRatio (ed 1000%Z) = PosInf
  /\ TemplateEditor.scale (ed 1000%Z) = ratio 1 2
  /\ TemplateEditor.scale (ed 2000%Z) = ratio 1 4.
Proof. repeat split; compute_done. Qed.

(** C9 (corrected statement). The preview replaces a zero, [NaN] or missing
    native width or height by 800 or 600 before it divides, and its container
    width is 800 until the dialog is measured: its divisor is never zero and
    its scale is a finite number, at most 0.9, for every finite container
    width. The editor has no fallback: its dimensions start at 800 x 600, and
    for finite native dimensions W, H >= 0, zero included, its scale is a
    finite number in (0, 1], an infinite quotient being absorbed by the cap. *)
Theorem C9_scale_is_finite (p : Props) (s : State) (cw W H : Qc)
    (ed : TemplateEditor.State) :
  containerWidth s = Fin cw ->
  TemplateEditor.imageDimensions ed = TemplateEditor.mkDimensions (Fin W) (Fin H) ->
  0 <= W -> 0 <= H ->
  (truthy (templateWidth p) = true /\ truthy (templateHeight p) = true)
  /\ (truthy (default (of_Z 0) (image_width <$> template p)) = false ->
      templateWidth p = of_Z 800)
  /\ (truthy (default (of_Z 0) (image_height <$> template p)) = false ->
      templateHeight p = of_Z 600)
  /\ containerWidth initial = of_Z 800
  /\ (exists q, scale p s = Fin q /\ q <= Q2Qc (9 # 10))
  /\ TemplateEditor.imageDimensions TemplateEditor.initial
       = TemplateEditor.mkDimensions (of_Z 800) (of_Z 600)
  /\ (W = 0 -> TemplateEditor.widthRatio ed = PosInf)
  /\ (H = 0 -> TemplateEditor.heightRatio ed = PosInf)
  /\ (exists q, TemplateEditor.scale ed = Fin q
                /\ 0 < q /\ q <= Spec.Qc_of_Z 1).
Proof.
  intros Hcw Hdim HW HH.
  split; [split; [apply templateWidth_truthy | apply templateHeight_truthy]|].
  split.
  { unfold templateWidth. destruct (template p) as [t|]; simpl; [|reflexivity].
    intros ->. reflexivity. }
  split.
  { unfold templateHeight. destruct (template p) as [t|]; simpl; [|reflexivity].
    intros ->. reflexivity. }
  split; [reflexivity|].
  split; [apply (preview_scale_finite p s cw Hcw)|].
  split; [reflexivity|].
  split.
  { intros ->. unfold TemplateEditor.widthRatio. rewrite Hdim. reflexivity. }
  split.
  { intros ->. unfold TemplateEditor.heightRatio. rewrite Hdim. reflexivity. }
  destruct ed as [dims fields sel]. simpl in Hdim. subst dims.
  apply editor_scale_finite; assumption.
Qed.

Lemma C9_scale_is_finite_witness :
  let p := mkProps (Some (mkTemplate "t" "Empty" "url" (of_Z 0) (of_Z 0)))
             [] [] ∅ in
  let ed := TemplateEditor.mkState
              (TemplateEditor.mkDimensions (Fin 0) (Fin 0)) [] None in
  templateWidth p = of_Z 800
  /\ (exists q, scale p initial = Fin q /\ q <= Q2Qc (9 # 10))
  /\ (exists q, TemplateEditor.scale ed = Fin q
                /\ 0 < q /\ q <= Spec.Qc_of_Z 1).
Proof.
  intros p ed.
  destruct (C9_scale_is_finite p initial (Spec.Qc_of_Z 800) 0 0 ed)
    as (_ & Hw & _ & _ & Hp & _ & _ & _ & He);
    [reflexivity | reflexivity | discriminate | discriminate |].
  split; [apply Hw; reflexivity|]. split; [exact Hp | exact He].
Defined.

End ScaleCalculator.

(** ** Field placement on the canvas *)

Section FieldPlacement.

(** C8 (counterexample). A field whose [max_width] is 0 gets no width in
    the preview, not the product [0 * scale]. *)
Lemma C8_preview_zero_max_width :
  let f := Field.mk "f1" "name" "Name" (of_Z 100) (of_Z 50) (of_Z 32)
             "Arial" "#000000" "center" (Some (of_Z 0)) in
  let p := CertificatePreview.mkProps
             (Some (CertificatePreview.mkTemplate "t" "T" "url"
                      (of_Z 800) (of_Z 600)))
             [f] [] ∅ in
  let s := CertificatePreview.initial in
  Konva.width (CertificatePreview.renderField p s f) = None
  /\ Konva.width (CertificatePreview.renderField p s f)
     <> Some (mul (of_Z 0) (CertificatePreview.scale p s)).
Proof. split; [reflexivity | discriminate]. Qed.

(** C8 (corrected statement). Every field of a template appears at display
    position [(x*scale, y*scale)] in the editor, whose stage carries the
    scale, and in the preview, which multiplies the coordinates itself. The
    preview also multiplies [font_size] by the scale, and [max_width] when it
    is set and not zero; a field without [max_width], or with 0, gets no
    width. *)
Theorem C8_display_position `{Engine} (ed : TemplateEditor.State)
    (p : CertificatePreview.Props) (s : CertificatePreview.State)
    (t : CertificatePreview.Template) (i j : nat) (f g : Field.t) :
  TemplateEditor.fields ed !! i = Some f ->
  CertificatePreview.template p = Some t ->
  CertificatePreview.templateFields p !! j = Some g ->
  (exists n,
      (TemplateEditor.render ed).2 !! i = Some n
      /\ Konva.getAbsolutePosition (TemplateEditor.render ed).1 n
         = (mul (Field.x f) (TemplateEditor.scale ed),
            mul (Field.y f) (TemplateEditor.scale ed)))
  /\ (exists stage nodes n,
      CertificatePreview.render p s = Some (stage, nodes)
      /\ nodes !! j = Some n
      /\ Konva.getAbsolutePosition stage n
         = (mul (Field.x g) (CertificatePreview.scale p s),
            mul (Field.y g) (CertificatePreview.scale p s))
      /\ Konva.fontSize n
         = mul (Field.font_size g) (CertificatePreview.scale p s)
      /\ Konva.width n
         = match Field.max_width g with
           | Some m =>
               if truthy m then Some (mul m (CertificatePreview.scale p s))
               else None
           | None => None
           end).
Proof.
  intros Hf Ht Hg. split.
  - exists (TemplateEditor.renderField ed f). split.
    + simpl. rewrite list_lookup_fmap, Hf. reflexivity.
    + reflexivity.
  - unfold CertificatePreview.render. rewrite Ht.
    eexists _, _, (CertificatePreview.renderField p s g).
    split; [reflexivity|]. split.
    + rewrite list_lookup_fmap, Hg. reflexivity.
    + unfold Konva.getAbsolutePosition, Konva.getScaleX, Konva.getScaleY.
      simpl. rewrite !mul_1_r. auto.
Qed.

Lemma C8_display_position_witness :
  let f := Field.mk "f1" "name" "Name" (of_Z 100) (of_Z 50) (of_Z 32)
             "Arial" "#000000" "center" (Some (of_Z 400)) in
  let ed := TemplateEditor.mkState
              (TemplateEditor.mkDimensions (of_Z 1600) (of_Z 600)) [f] None in
  let t := CertificatePreview.mkTemplate "t" "T" "url" (of_Z 1600) (of_Z 600) in
  let p := CertificatePreview.mkProps (Some t) [f] [] ∅ in
  let s := CertificatePreview.initial in
  (exists n,
      (TemplateEditor.render ed).2 !! 0%nat = Some n
      /\ Konva.getAbsolutePosition (TemplateEditor.render ed).1 n
         = (mul (Field.x f) (TemplateEditor.scale ed),
            mul (Field.y f) (TemplateEditor.scale ed)))
  /\ (exists stage nodes n,
      CertificatePreview.render p s = Some (stage, nodes)
      /\ nodes !! 0%nat = Some n
      /\ Konva.getAbsolutePosition stage n
         = (mul (Field.x f) (CertificatePreview.scale p s),
            mul (Field.y f) (CertificatePreview.scale p s))
      /\ Konva.fontSize n
         = mul (Field.font_size f) (CertificatePreview.scale p s)
      /\ Konva.width n
         = match Field.max_width f with
           | Some m =>
               if truthy m then Some (mul m (CertificatePreview.scale p s))
               else None
           | None => None
           end).
Proof.
  intros f ed t p s.
  apply (C8_display_position ed p s t 0 0 f f); reflexivity.
Defined.

End FieldPlacement.

(** ** The editor's working set *)

Section WorkingSet.

Import TemplateEditor.

Lemma updated_default {A} (old : A) (u : option A) :
  Spec.updated old (default old u) u.
Proof. destruct u; reflexivity. Qed.

(** C10. [updateField] keeps the list in place and in order: a field with
    another id is untouched, a field with the given id keeps every attribute
    the update does not carry and takes the ones it carries; the image
    dimensions and the selection are untouched. [removeField] drops the
    fields with the given id and keeps all others, in order. *)
Theorem C10_update_remove_frame (fieldId : string) (updates : Partial)
    (st : State) :
  (length (fields (updateField fieldId updates st)) = length (fields st)
   /\ imageDimensions (updateField fieldId updates st) = imageDimensions st
   /\ selectedFieldId (updateField fieldId updates st) = selectedFieldId st
   /\ forall i f, fields st !! i = Some f ->
        exists f', fields (updateField fieldId updates st) !! i = Some f'
          /\ (Field.id f <> fieldId -> f' = f)
          /\ (Field.id f = fieldId ->
                Spec.updated (Field.id f) (Field.id f') (id updates)
                /\ Spec.updated (Field.field_key f) (Field.field_key f')
                     (field_key updates)
                /\ Spec.updated (Field.label f) (Field.label f') (label updates)
                /\ Spec.updated (Field.x f) (Field.x f') (x updates)
                /\ Spec.updated (Field.y f) (Field.y f') (y updates)
                /\ Spec.updated (Field.font_size f) (Field.font_size f')
                     (font_size updates)
                /\ Spec.updated (Field.font_family f) (Field.font_family f')
                     (font_family updates)
                /\ Spec.updated (Field.font_color f) (Field.font_color f')
                     (font_color updates)
                /\ Spec.updated (Field.text_align f) (Field.text_align f')
                     (text_align updates)
                /\ Spec.updated (Field.max_width f) (Field.max_width f')
                     (max_width updates)))
  /\ ((forall f, f ∈ fields (removeField fieldId st)
                 <-> Field.id f <> fieldId /\ f ∈ fields st)
      /\ (forall other, other <> fieldId ->
            filter (fun f => Field.id f = other) (fields (removeField fieldId st))
            = filter (fun f => Field.id f = other) (fields st))
      /\ fields (removeField fieldId st) `sublist_of` fields st
      /\ imageDimensions (removeField fieldId st) = imageDimensions st
      /\ (selectedFieldId st <> Some fieldId ->
          selectedFieldId (removeField fieldId st) = selectedFieldId st)).
Proof.
  split.
  - split; [apply length_fmap|]. split; [reflexivity|]. split; [reflexivity|].
    intros i f Hf. simpl. rewrite list_lookup_fmap, Hf. simpl.
    eexists; split; [reflexivity|]. split.
    + intros Hne. rewrite decide_False by exact Hne. reflexivity.
    + intros He. rewrite decide_True by exact He.
      unfold spread; simpl. repeat split; apply updated_default.
  - split; [|split; [|split; [|split]]].
    + intros f. simpl. rewrite list_elem_of_filter. reflexivity.
    + intros other Hne. simpl. apply list_filter_filter_l.
      intros f ->. exact Hne.
    + simpl. apply sublist_filter.
    + reflexivity.
    + intros Hsel. simpl. rewrite decide_False by exact Hsel. reflexivity.
Qed.

Lemma C10_update_remove_frame_witness :
  let f1 := Field.mk "f1" "name" "Name" (of_Z 100) (of_Z 50) (of_Z 32)
              "Arial" "#000000" "center" None in
  let f2 := Field.mk "f2" "date" "Date" (of_Z 300) (of_Z 400) (of_Z 24)
              "Georgia" "#333333" "left" None in
  let st := mkState (mkDimensions (of_Z 800) (of_Z 600)) [f1; f2] (Some "f2") in
  let moved := mkPartial None None None (Some (of_Z 7)) None None None None
                 None None in
  fields (updateField "f1" moved st) !! 1%nat = Some f2
  /\ (exists f', fields (updateField "f1" moved st) !! 0%nat = Some f'
                 /\ Field.x f' = of_Z 7 /\ Field.y f' = Field.y f1)
  /\ f2 ∈ fields (removeField "f1" st)
  /\ selectedFieldId (removeField "f1" st) = Some "f2".
Proof.
  intros f1 f2 st moved.
  destruct (C10_update_remove_frame "f1" moved st)
    as [(_ & _ & _ & Hupd) (Hin & _ & _ & _ & Hsel)].
  split; [|split; [|split]].
  - destruct (Hupd 1%nat f2 eq_refl) as (f' & Hl & Hother & _).
    rewrite Hl. f_equal. apply Hother. discriminate.
  - destruct (Hupd 0%nat f1 eq_refl) as (f' & Hl & _ & Hsame).
    destruct (Hsame eq_refl) as (_ & _ & _ & Hx & Hy & _).
    exists f'. split; [exact Hl|]. split; [exact Hx | exact Hy].
  - apply Hin. split; [discriminate|]. apply list_elem_of_lookup.
    exists 1%nat. reflexivity.
  - apply Hsel. discriminate.
Defined.

End WorkingSet.

(** ** The preview: navigation and value resolution *)

Section Preview.

Import CertificatePreview.

Lemma pickerChoices_in_range p v :
  v ∈ pickerChoices p -> (0 <= v <= Z.of_nat (length (csvData p)) - 1)%Z.
Proof.
  intros Hv. apply list_elem_of_fmap in Hv as (k & -> & Hk).
  apply elem_of_seq in Hk. lia.
Qed.

Lemma handle_in_range p s e :
  offered p e ->
  (0 <= previewIndex s <= Z.of_nat (length (csvData p)) - 1)%Z ->
  (0 <= previewIndex (handle p s e) <= Z.of_nat (length (csvData p)) - 1)%Z.
Proof.
  intros He Hin. destruct e as [| |v]; simpl.
  - lia.
  - lia.
  - apply pickerChoices_in_range. exact He.
Qed.

(** The range is an invariant of every session. *)
Lemma run_in_range p events : forall s,
  Forall (offered p) events ->
  (0 <= previewIndex s <= Z.of_nat (length (csvData p)) - 1)%Z ->
  (0 <= previewIndex (run p s events) <= Z.of_nat (length (csvData p)) - 1)%Z.
Proof.
  induction events as [|e events IH]; intros s Hev Hin; [exact Hin|].
  apply Forall_cons in Hev as [He Hev]. unfold run. cbn [fold_left].
  apply IH; [exact Hev|]. apply handle_in_range; assumption.
Qed.

(** C6. With the index inside [0, rowCount-1], "previous" and "next" leave
    it inside; they step by one where there is room and change nothing at
    the boundaries: "previous" at 0 and "next" at [rowCount-1] are no-ops.
    An index picked from the record picker is inside as well, so the index
    stays inside through every sequence of these operations. *)
Theorem C6_index_in_range (p : Props) (s : State) :
  let rowCount := Z.of_nat (length (csvData p)) in
  (0 <= previewIndex s <= rowCount - 1)%Z ->
  (0 <= previewIndex (handlePrev s) <= rowCount - 1)%Z
  /\ (0 <= previewIndex (handleNext p s) <= rowCount - 1)%Z
  /\ (previewIndex s = 0%Z -> handlePrev s = s)
  /\ (previewIndex s = (rowCount - 1)%Z -> handleNext p s = s)
  /\ ((0 < previewIndex s)%Z ->
      previewIndex (handlePrev s) = (previewIndex s - 1)%Z)
  /\ ((previewIndex s < rowCount - 1)%Z ->
      previewIndex (handleNext p s) = (previewIndex s + 1)%Z)
  /\ (forall v, v ∈ pickerChoices p ->
        (0 <= previewIndex (onValueChange v s) <= rowCount - 1)%Z)
  /\ (forall events, Forall (offered p) events ->
        (0 <= previewIndex (run p s events) <= rowCount - 1)%Z).
Proof.
  intros rowCount Hin.
  split; [apply (handle_in_range p s Previous I Hin)|].
  split; [apply (handle_in_range p s Next I Hin)|].
  split; [|split; [|split; [|split; [|split]]]].
  - intros H0. destruct s as [i cw]. simpl in *. subst i. reflexivity.
  - intros Hlast. destruct s as [i cw]. unfold handleNext. simpl in *.
    f_equal. lia.
  - simpl. lia.
  - simpl. lia.
  - intros v Hv. apply (handle_in_range p s (Pick v) Hv Hin).
  - intros events Hev. apply run_in_range; assumption.
Qed.

Lemma C6_index_in_range_witness :
  let p := mkProps None []
             [{[ "name" := "Ann" ]}; {[ "name" := "Bob" ]};
              ({[ "name" := "Cy" ]} : gmap string string)] ∅ in
  previewIndex (handlePrev initial) = 0%Z
  /\ previewIndex (handleNext p (mkState 2 (of_Z 800))) = 2%Z
  /\ (0 <= previewIndex (handleNext p initial) <= 2)%Z.
Proof.
  intros p.
  destruct (C6_index_in_range p initial) as (_ & Hn & Hp0 & _);
    [simpl; lia|].
  destruct (C6_index_in_range p (mkState 2 (of_Z 800)))
    as (_ & _ & _ & Hlast & _); [simpl; lia|].
  split; [rewrite Hp0; reflexivity|].
  split; [rewrite Hlast; reflexivity | exact Hn].
Defined.

(** Reads of a dictionary. *)
Lemma get_own (o : gmap string string) k v :
  o !! k = Some v -> get o k = Some (Str v).
Proof. intros Hk. unfold get. rewrite Hk. reflexivity. Qed.

Lemma get_missing (o : gmap string string) k :
  o !! k = None -> k ∉ Object_prototype -> get o k = None.
Proof.
  intros Hk Hno. unfold get. rewrite Hk, decide_False by exact Hno.
  reflexivity.
Qed.

Lemma get_inherited (o : gmap string string) k :
  o !! k = None -> k ∈ Object_prototype -> get o k = Some (Inherited k).
Proof.
  intros Hk Hin. unfold get. rewrite Hk, decide_True by exact Hin.
  reflexivity.
Qed.

(** The key made from an inherited member names no inherited member. *)
Lemma toPropertyKey_fresh `{Engine} m :
  toPropertyKey (Inherited m) ∉ Object_prototype.
Proof.
  unfold toPropertyKey. case_decide.
  - apply (bool_decide_unpack _). vm_compute. exact I.
  - apply functionSource_fresh.
Qed.

(** C3 (counterexample). The field "course" is mapped to the column whose
    name is the empty string and the row holds "Math" under that column:
    the mapping is defined and the cell is not empty, yet the placeholder
    is returned, because an empty column name counts as no mapping. *)
Lemma C3_empty_column_name :
  let p := mkProps None [] [{[ "" := "Math" ]}] {[ "course" := "" ]} in
  fieldMapping p !! "course" = Some ""
  /\ currentRow p initial !! "" = Some "Math"
  /\ getFieldValue p initial "course" = Str "{{course}}"
  /\ getFieldValue p initial "course" <> Str "Math".
Proof. repeat split; compute_done. Qed.

(** A column that bears the name of an inherited member: when the row has
    no cell of its own under it, the read finds the member and
    [getFieldValue] returns it, not the placeholder. *)
Lemma getFieldValue_inherited_member `{Engine} (p : Props) (s : State)
    (fieldKey column : string) :
  fieldMapping p !! fieldKey = Some column ->
  column ∈ Object_prototype ->
  currentRow p s !! column = None ->
  getFieldValue p s fieldKey = Inherited column.
Proof.
  intros Hm Hin Hrow. unfold getFieldValue.
  rewrite (get_own _ _ _ Hm). cbn [truthy_value toPropertyKey].
  assert (Hne : column <> "").
  { intros ->. revert Hin. apply (bool_decide_unpack _). vm_compute. exact I. }
  unfold truthy_string. rewrite bool_decide_eq_true_2 by exact Hne.
  rewrite (get_inherited _ _ Hrow Hin). reflexivity.
Qed.

(** C3 (corrected statement). [getFieldValue] returns the cell of the current
    row under the column mapped to the field key when that column name is
    defined and not empty and the cell is present and not empty; in every
    other case it returns the field key wrapped in double braces, as long
    as neither the field key nor the column bears the name of a member
    that every object inherits. *)
Theorem C3_getFieldValue `{Engine} (p : Props) (s : State)
    (fieldKey : string) :
  (forall column value,
      fieldMapping p !! fieldKey = Some column -> column <> "" ->
      currentRow p s !! column = Some value -> value <> "" ->
      getFieldValue p s fieldKey = Str value)
  /\ (fieldKey ∉ Object_prototype ->
      (forall column,
         fieldMapping p !! fieldKey = Some column ->
         column ∉ Object_prototype) ->
      (forall column value,
         fieldMapping p !! fieldKey = Some column -> column <> "" ->
         currentRow p s !! column = Some value -> value = "") ->
      getFieldValue p s fieldKey = Str ("{{" +:+ fieldKey +:+ "}}")).
Proof.
  unfold getFieldValue. split.
  - intros column value Hm Hc Hrow Hv.
    rewrite (get_own _ _ _ Hm). cbn [truthy_value toPropertyKey].
    unfold truthy_string. rewrite bool_decide_eq_true_2 by exact Hc.
    rewrite (get_own _ _ _ Hrow). cbn [truthy_value].
    unfold truthy_string. rewrite bool_decide_eq_true_2 by exact Hv.
    reflexivity.
  - intros Hkey Hcol Hnone.
    destruct (fieldMapping p !! fieldKey) as [column|] eqn:Hm.
    + rewrite (get_own _ _ _ Hm). cbn [truthy_value toPropertyKey].
      unfold truthy_string. case_bool_decide as Hc; [|reflexivity].
      destruct (currentRow p s !! column) as [value|] eqn:Hrow.
      * rewrite (get_own _ _ _ Hrow). cbn [truthy_value].
        unfold truthy_string. case_bool_decide as Hv; [|reflexivity].
        exfalso. apply Hv. apply (Hnone column value); auto.
      * rewrite (get_missing _ _ Hrow) by (apply Hcol; reflexivity).
        reflexivity.
    + rewrite (get_missing _ _ Hm Hkey). reflexivity.
Qed.

Lemma C3_getFieldValue_witness :
  let row : gmap string string := {[ "Name" := "Ann"; "Course" := "" ]} in
  let p := mkProps None [] [row] {[ "name" := "Name"; "course" := "Course" ]} in
  getFieldValue p initial "name" = Str "Ann"
  /\ getFieldValue p initial "course" = Str "{{course}}"
  /\ getFieldValue p initial "date" = Str "{{date}}".
Proof.
  intros row p.
  destruct (C3_getFieldValue p initial "name") as [Hname _].
  destruct (C3_getFieldValue p initial "course") as [_ Hcourse].
  destruct (C3_getFieldValue p initial "date") as [_ Hdate].
  split; [|split].
  - apply (Hname "Name"); [reflexivity | discriminate | reflexivity
                          | discriminate].
  - apply Hcourse.
    + apply (bool_decide_unpack _). vm_compute. exact I.
    + intros column Hm. vm_compute in Hm. injection Hm as <-.
      apply (bool_decide_unpack _). vm_compute. exact I.
    + intros column value Hm _ Hr.
      vm_compute in Hm. injection Hm as <-. vm_compute in Hr.
      injection Hr as <-. reflexivity.
  - apply Hdate.
    + apply (bool_decide_unpack _). vm_compute. exact I.
    + intros column Hm. vm_compute in Hm. discriminate Hm.
    + intros column value Hm. vm_compute in Hm. discriminate Hm.
Defined.

End Preview.

(** ** The generation page: automatic mapping *)

Section AutoMapping.

Import Generate.

(** [Array.prototype.find]: the element found passes the test and is the
    first to do so; nothing is found when no element passes. *)
Lemma find_first {A} (f : A -> bool) (l : list A) (x : A) :
  find f l = Some x ->
  f x = true
  /\ exists before after, l = before ++ x :: after
                          /\ forall y, y ∈ before -> f y = false.
Proof.
  induction l as [|a l IH]; [discriminate|]. simpl.
  destruct (f a) eqn:Ha.
  - intros [= <-]. split; [exact Ha|]. exists [], l. split; [reflexivity|].
    intros y Hy. exfalso. revert Hy. apply not_elem_of_nil.
  - intros Hfind. destruct (IH Hfind) as (Hx & before & after & -> & Hb).
    split; [exact Hx|]. exists (a :: before), after. split; [reflexivity|].
    intros y Hy. apply elem_of_cons in Hy as [->|Hy]; [exact Ha | auto].
Qed.

Lemma find_nothing {A} (f : A -> bool) (l : list A) :
  (forall y, y ∈ l -> f y = false) -> find f l = None.
Proof.
  induction l as [|a l IH]; intros Hall; [reflexivity|]. simpl.
  rewrite (Hall a) by apply list_elem_of_here.
  apply IH. intros y Hy. apply Hall, list_elem_of_further, Hy.
Qed.

Lemma find_at_first {A} (f : A -> bool) (before after : list A) (x : A) :
  (forall y, y ∈ before -> f y = false) -> f x = true ->
  find f (before ++ x :: after) = Some x.
Proof.
  intros Hb Hx. induction before as [|a before IH]; simpl.
  - rewrite Hx. reflexivity.
  - rewrite (Hb a) by apply list_elem_of_here.
    apply IH. intros y Hy. apply Hb, list_elem_of_further, Hy.
Qed.

Lemma toLowerCase_nil `{Engine} : toLowerCase "" = "".
Proof. apply (toLowerCase_isAscii ""). reflexivity. Qed.

Lemma firstMatch_elem `{Engine} headers k h :
  Spec.firstMatch headers k = Some h ->
  h ∈ headers /\ toLowerCase h = toLowerCase k.
Proof.
  intros Hfind. apply find_some in Hfind as [Hin Heq].
  split; [apply list_elem_of_In; exact Hin|].
  apply bool_decide_eq_true_1 in Heq. exact Heq.
Qed.

Lemma firstMatch_nonempty `{Engine} headers k h :
  k <> "" -> Spec.firstMatch headers k = Some h -> h <> "".
Proof.
  intros Hk Hfind ->. apply firstMatch_elem in Hfind as [_ Heq].
  apply Hk. apply toLowerCase_empty. rewrite <- Heq. apply toLowerCase_nil.
Qed.

Lemma firstMatch_empty_key `{Engine} headers h :
  Spec.firstMatch headers "" = Some h -> h = "".
Proof.
  intros Hfind. apply firstMatch_elem in Hfind as [_ Heq].
  apply toLowerCase_empty. rewrite Heq. apply toLowerCase_nil.
Qed.

(** The first match, said without [find]: the header at which the list
    splits so that it equals the key up to case and no header before it
    does. *)
Lemma firstMatch_Some `{Engine} headers k h :
  Spec.firstMatch headers k = Some h <->
  exists before after,
    headers = before ++ h :: after
    /\ toLowerCase h = toLowerCase k
    /\ forall h', h' ∈ before -> toLowerCase h' <> toLowerCase k.
Proof.
  unfold Spec.firstMatch. split.
  - intros Hfind. apply find_first in Hfind
      as (Hh & before & after & -> & Hb).
    exists before, after. split; [reflexivity|].
    split; [apply bool_decide_eq_true_1 in Hh; exact Hh|].
    intros h' Hh'. apply Hb in Hh'.
    apply bool_decide_eq_false_1 in Hh'. exact Hh'.
  - intros (before & after & -> & Hh & Hb). apply find_at_first.
    + intros y Hy. apply bool_decide_eq_false_2, Hb, Hy.
    + apply bool_decide_eq_true_2, Hh.
Qed.

Lemma firstMatch_None `{Engine} headers k :
  Spec.firstMatch headers k = None <->
  forall h, h ∈ headers -> toLowerCase h <> toLowerCase k.
Proof.
  unfold Spec.firstMatch. split.
  - intros Hfind h Hin Heq. apply list_elem_of_In in Hin.
    apply (find_none _ _ Hfind) in Hin.
    apply bool_decide_eq_false_1 in Hin. contradiction.
  - intros Hall. apply find_nothing. intros y Hy.
    apply bool_decide_eq_false_2, Hall, Hy.
Qed.

(** The loop, from any starting mapping: a key of some field, other than
    [__proto__], with a non-empty first match is bound to that match;
    every other key keeps what it had. *)
Lemma autoMap_loop `{Engine} headers (fs : list Field.t)
    (m : gmap string string) k :
  fold_left
    (fun mapping field =>
       match find (fun h => bool_decide
                              (toLowerCase h = toLowerCase (Field.field_key field)))
               headers with
       | Some matchingHeader =>
           if truthy_string matchingHeader
           then assign mapping (Field.field_key field) matchingHeader
           else mapping
       | None => mapping
       end) fs m !! k
  = if decide (k ∈ Field.field_key <$> fs /\ k <> "__proto__") then
      match Spec.firstMatch headers k with
      | Some h => if truthy_string h then Some h else m !! k
      | None => m !! k
      end
    else m !! k.
Proof.
  revert m. induction fs as [|f fs IH]; intros m.
  - cbn [fold_left]. case_decide as Hin; [|reflexivity].
    exfalso. destruct Hin as [Hin _]. revert Hin. apply not_elem_of_nil.
  - cbn [fold_left]. rewrite IH. clear IH.
    change (find (fun h => bool_decide
                   (toLowerCase h = toLowerCase (Field.field_key f))) headers)
      with (Spec.firstMatch headers (Field.field_key f)).
    rewrite fmap_cons.
    assert (Hstep :
      match Spec.firstMatch headers (Field.field_key f) with
      | Some h => if truthy_string h
                  then assign m (Field.field_key f) h else m
      | None => m
      end !! k
      = if decide (Field.field_key f = k /\ k <> "__proto__") then
          match Spec.firstMatch headers k with
          | Some h => if truthy_string h then Some h else m !! k
          | None => m !! k
          end
        else m !! k).
    { destruct (decide (Field.field_key f = k)) as [<-|Hne].
      - destruct (decide (Field.field_key f = "__proto__")) as [Hp|Hp].
        + rewrite decide_False by tauto.
          destruct (Spec.firstMatch headers (Field.field_key f)) as [h|];
            [|reflexivity].
          destruct (truthy_string h); [|reflexivity].
          unfold assign. rewrite decide_True by exact Hp. reflexivity.
        + rewrite decide_True by tauto.
          destruct (Spec.firstMatch headers (Field.field_key f)) as [h|];
            [|reflexivity].
          destruct (truthy_string h); [|reflexivity].
          unfold assign. rewrite decide_False by exact Hp.
          apply lookup_insert_eq.
      - rewrite decide_False by tauto.
        destruct (Spec.firstMatch headers (Field.field_key f)) as [h|];
          [|reflexivity].
        destruct (truthy_string h); [|reflexivity].
        unfold assign. case_decide; [reflexivity|].
        apply lookup_insert_ne. exact Hne. }
    rewrite Hstep. clear Hstep.
    destruct (decide (k ∈ Field.field_key <$> fs /\ k <> "__proto__"))
      as [[Hin Hp]|Hnin].
    + rewrite (decide_True (P := _ ∈ _ :: _ /\ _))
        by (split; [apply list_elem_of_further; exact Hin | exact Hp]).
      destruct (Spec.firstMatch headers k) as [h|];
        [|case_decide; reflexivity].
      destruct (truthy_string h); [reflexivity|]. case_decide; reflexivity.
    + destruct (decide (Field.field_key f = k /\ k <> "__proto__"))
        as [[Heq Hp]|Hne].
      * rewrite (decide_True (P := _ ∈ _ :: _ /\ _))
          by (split; [rewrite Heq; apply list_elem_of_here | exact Hp]).
        reflexivity.
      * rewrite (decide_False (P := _ ∈ _ :: _ /\ _)); [reflexivity|].
        intros [Hin Hp]. apply elem_of_cons in Hin as [Heq|Hin].
        -- apply Hne. split; [symmetry; exact Heq | exact Hp].
        -- apply Hnin. split; assumption.
Qed.

Lemma autoMap_lookup `{Engine} (fs : list Field.t) headers k :
  autoMap fs headers !! k
  = if decide (k ∈ Field.field_key <$> fs /\ k <> "__proto__") then
      match Spec.firstMatch headers k with
      | Some h => if truthy_string h then Some h else None
      | None => None
      end
    else None.
Proof.
  unfold autoMap. rewrite autoMap_loop. rewrite lookup_empty. reflexivity.
Qed.

(** C4 (counterexample). A field whose key is the empty string and a
    header row that has a column with the empty name: the first header
    equal to the key is that column, yet nothing is mapped, because the
    loop drops an empty match. *)
Lemma C4_empty_key_not_mapped :
  let f := Field.mk "f1" "" "Custom Field" (of_Z 400) (of_Z 300) (of_Z 32)
             "Arial" "#000000" "center" None in
  let t := mkTemplateRecord
             (CertificatePreview.mkTemplate "t1" "T" "url" (of_Z 800) (of_Z 600))
             (Some [f]) in
  let p := mkProps None (Some [t]) in
  let results := mkParseResult [] (Some [""; "name"]) in
  let st := handleCsvUpload p results (initial (Some "t1")) in
  Spec.firstMatch (csvHeaders st) "" = Some ""
  /\ fieldMapping st !! "" = None.
Proof. split; compute_done. Qed.

(** C4 (corrected statement). Loading a row-set maps each non-empty field key
    of the selected template to the first header whose name equals the key
    when case is ignored, and maps nothing for a key without such a header; an
    empty field key and a key of no field are never mapped. The comparison is
    exact: a mapped header always equals its key up to case, which for texts
    of ASCII characters means equal once the letters A to Z are folded. The
    folding is the engine's, whichever it is. The key [__proto__], which an
    assignment cannot add to an object, is left out. *)
Theorem C4_auto_mapping `{Engine} (p : Props) (results : ParseResult)
    (st : State) (fieldKey : string) :
  let headers := default [] (fields results) in
  let mapping := fieldMapping (handleCsvUpload p results st) in
  csvHeaders (handleCsvUpload p results st) = headers
  /\ (fieldKey <> "" -> fieldKey <> "__proto__" ->
      fieldKey ∈ Field.field_key <$> templateFields p st ->
      (forall h,
          mapping !! fieldKey = Some h <->
          exists before after,
            headers = before ++ h :: after
            /\ toLowerCase h = toLowerCase fieldKey
            /\ forall h', h' ∈ before ->
                 toLowerCase h' <> toLowerCase fieldKey)
      /\ (mapping !! fieldKey = None <->
          forall h, h ∈ headers -> toLowerCase h <> toLowerCase fieldKey))
  /\ (fieldKey ∉ Field.field_key <$> templateFields p st ->
      mapping !! fieldKey = None)
  /\ mapping !! "" = None
  /\ (forall h, mapping !! fieldKey = Some h ->
        h ∈ headers /\ toLowerCase h = toLowerCase fieldKey)
  /\ (forall h, isAscii h = true -> isAscii fieldKey = true ->
        (toLowerCase h = toLowerCase fieldKey
         <-> toLowerCase_ascii h = toLowerCase_ascii fieldKey)).
Proof.
  intros headers mapping. unfold mapping.
  cbn [handleCsvUpload fieldMapping csvHeaders].
  fold headers. split; [reflexivity|]. split; [|split; [|split; [|split]]].
  - intros Hk Hp Hin.
    assert (Hmap : autoMap (templateFields p st) headers !! fieldKey
                   = Spec.firstMatch headers fieldKey).
    { rewrite autoMap_lookup, decide_True by (split; assumption).
      destruct (Spec.firstMatch headers fieldKey) as [h|] eqn:Hfind;
        [|reflexivity].
      unfold truthy_string.
      rewrite bool_decide_eq_true_2; [reflexivity|].
      apply (firstMatch_nonempty headers fieldKey h Hk Hfind). }
    rewrite Hmap. split.
    + intros h. apply firstMatch_Some.
    + apply firstMatch_None.
  - intros Hnin. rewrite autoMap_lookup, decide_False by tauto.
    reflexivity.
  - rewrite autoMap_lookup. case_decide; [|reflexivity].
    destruct (Spec.firstMatch headers "") as [h|] eqn:Hfind; [|reflexivity].
    apply firstMatch_empty_key in Hfind as ->. reflexivity.
  - intros h. rewrite autoMap_lookup. case_decide; [|discriminate].
    destruct (Spec.firstMatch headers fieldKey) as [h'|] eqn:Hfind;
      [|discriminate].
    destruct (truthy_string h'); [|discriminate].
    intros [= <-]. apply (firstMatch_elem headers fieldKey h' Hfind).
  - intros h Hh Hkey.
    rewrite (toLowerCase_isAscii h Hh), (toLowerCase_isAscii fieldKey Hkey).
    reflexivity.
Qed.

Lemma C4_auto_mapping_witness :
  let f1 := Field.mk "f1" "name" "Participant Name" (of_Z 400) (of_Z 300)
              (of_Z 32) "Arial" "#000000" "center" None in
  let f2 := Field.mk "f2" "Name " "Custom Field" (of_Z 400) (of_Z 350)
              (of_Z 32) "Arial" "#000000" "center" None in
  let f3 := Field.mk "f3" "EMAIL" "Custom Field" (of_Z 400) (of_Z 400)
              (of_Z 32) "Arial" "#000000" "center" None in
  let f4 := Field.mk "f4" "café" "Custom Field" (of_Z 400) (of_Z 450)
              (of_Z 32) "Arial" "#000000" "center" None in
  let t := mkTemplateRecord
             (CertificatePreview.mkTemplate "t1" "T" "url" (of_Z 800) (of_Z 600))
             (Some [f1; f2; f3; f4]) in
  let p := mkProps None (Some [t]) in
  let results := mkParseResult [] (Some ["name"; "email"; "CAFÉ"]) in
  let mapping := fieldMapping (handleCsvUpload p results (initial (Some "t1"))) in
  mapping !! "name" = Some "name"
  /\ mapping !! "Name " = None
  /\ mapping !! "EMAIL" = Some "email"
  /\ mapping !! "café" = Some "CAFÉ"
  /\ mapping !! "course" = None.
Proof.
  intros f1 f2 f3 f4 t p results mapping.
  destruct (C4_auto_mapping p results (initial (Some "t1")) "name")
    as (_ & Hname & _).
  destruct (C4_auto_mapping p results (initial (Some "t1")) "Name ")
    as (_ & Hspace & _).
  destruct (C4_auto_mapping p results (initial (Some "t1")) "EMAIL")
    as (_ & Hemail & _).
  destruct (C4_auto_mapping p results (initial (Some "t1")) "café")
    as (_ & Hcafe & _).
  destruct (C4_auto_mapping p results (initial (Some "t1")) "course")
    as (_ & _ & Hcourse & _).
  split; [|split; [|split; [|split]]].
  - destruct Hname as [Hsome _];
      [discriminate | discriminate
      | apply (bool_decide_unpack _); vm_compute; exact I |].
    apply Hsome. exists [], ["email"; "CAFÉ"]. split; [reflexivity|].
    split; [reflexivity|]. intros h' Hh'. exfalso.
    revert Hh'. apply not_elem_of_nil.
  - destruct Hspace as [_ Hnone];
      [discriminate | discriminate
      | apply (bool_decide_unpack _); vm_compute; exact I |].
    apply Hnone. intros h Hh.
    apply elem_of_cons in Hh as [->|Hh]; [discriminate|].
    apply elem_of_cons in Hh as [->|Hh]; [discriminate|].
    apply list_elem_of_singleton in Hh as ->. discriminate.
  - destruct Hemail as [Hsome _];
      [discriminate | discriminate
      | apply (bool_decide_unpack _); vm_compute; exact I |].
    apply Hsome. exists ["name"], ["CAFÉ"]. split; [reflexivity|].
    split; [reflexivity|]. intros h' Hh'.
    apply list_elem_of_singleton in Hh' as ->. discriminate.
  - destruct Hcafe as [Hsome _];
      [discriminate | discriminate
      | apply (bool_decide_unpack _); vm_compute; exact I |].
    apply Hsome. exists ["name"; "email"], []. split; [reflexivity|].
    split; [reflexivity|]. intros h' Hh'.
    apply elem_of_cons in Hh' as [->|Hh']; [discriminate|].
    apply list_elem_of_singleton in Hh' as ->. discriminate.
  - apply Hcourse. apply (bool_decide_unpack _). vm_compute. exact I.
Defined.

End AutoMapping.

(** ** Requests against the backend *)

Section Requests.

Import Supabase.

(** An accepted request applies its operation. *)
Lemma request_accepted {A} (op : Db -> A * Db) db :
  faults db (requests db) = None ->
  request op db
  = (Return (Data (op (set_requests (S (requests db)) db)).1),
     (op (set_requests (S (requests db)) db)).2).
Proof.
  intros Hok. unfold request. rewrite Hok.
  destruct (op (set_requests (S (requests db)) db)). reflexivity.
Qed.

(** A rejected request only counts. *)
Lemma request_rejected {A} (op : Db -> A * Db) db e :
  faults db (requests db) = Some e ->
  request op db = (Return (Failed e), set_requests (S (requests db)) db).
Proof. intros Hko. unfold request. rewrite Hko. reflexivity. Qed.

Lemma bind_Return {A B} (m : Async A) (k : A -> Async B) db a db' :
  m db = (Return a, db') -> (x ← m; k x) db = k a db'.
Proof.
  intros Hm. unfold mbind, Async_bind, bind. rewrite Hm. reflexivity.
Qed.

End Requests.

(** ** The generation page: the batch *)

Section Batch.

Import Supabase Generate.

(** With every insert accepted, the loop appends one certificate per row,
    in the order of the rows, and sends one request per row. *)
Lemma insertCertificates_accepted batchId st rows db :
  (forall k, faults db k = None) ->
  insertCertificates batchId st rows db
  = (Return tt,
     set_certificates (certificates db ++ (certificateRow batchId st <$> rows))
       (set_requests (requests db + length rows) db)).
Proof.
  revert db. induction rows as [|row rows IH]; intros db Hok.
  - destruct db. unfold set_certificates, set_requests. simpl.
    rewrite app_nil_r, Nat.add_0_r. reflexivity.
  - cbn [insertCertificates].
    erewrite bind_Return;
      [|unfold insert_certificate; apply request_accepted, Hok].
    cbn [fst snd]. rewrite IH by (intros k; apply Hok).
    destruct db. unfold set_certificates, set_requests. simpl.
    rewrite <- app_assoc. do 4 f_equal. lia.
Qed.

(** C2 (counterexample). A row-set without rows (a file with only its
    header line), a selected template and a signed-in user: [handleGenerate]
    returns at once; no request is sent and no batch exists afterwards, so
    no batch has [generated_count] 0 and status "completed". *)
Lemma C2_empty_row_set_creates_no_batch :
  let t := mkTemplateRecord
             (CertificatePreview.mkTemplate "t1" "Award" "url"
                (of_Z 800) (of_Z 600)) (Some []) in
  let p := mkProps (Some (mkUser "u1")) (Some [t]) in
  let st := handleCsvUpload p (mkParseResult [] (Some ["name"; "email"]))
              (initial (Some "t1")) in
  let db := mkDb (fun _ => None) (fun _ => "b1") 0 0 [] [] [] [] in
  let out := handleGenerate "1/1/2026" p st db in
  length (csvData st) = 0%nat
  /\ out.1 = Return st
  /\ requests out.2 = 0%nat
  /\ batch_jobs out.2 = []
  /\ ~ exists b, b ∈ batch_jobs out.2
                 /\ b_generated_count b = 0%nat /\ b_status b = "completed".
Proof.
  repeat split.
  intros (b & Hb & _). vm_compute in Hb. revert Hb. apply not_elem_of_nil.
Qed.

(** C2 (corrected statement). With a selected template, a signed-in user, a
    row-set of N >= 1 rows and a backend that accepts every request,
    [handleGenerate] creates the batch, then exactly N certificate records,
    one per row in the order of the rows, each by its own request, and then
    sets the batch's [generated_count] to N and its status to "completed". *)
Theorem C2_generate (today : string) (p : Props) (st : State) (db : Db)
    (t : TemplateRecord) (u : User) :
  selectedTemplate p st = Some t ->
  user p = Some u ->
  csvData st <> [] ->
  (forall k, faults db k = None) ->
  let N := length (csvData st) in
  let batchId := uuids db (drawn db) in
  let out := handleGenerate today p st db in
  out.1 = Return (setStep 4 st)
  /\ certificates out.2
     = certificates db ++ (certificateRow batchId st <$> csvData st)
  /\ length (certificates out.2) = (length (certificates db) + N)%nat
  /\ requests out.2 = (requests db + N + 2)%nat
  /\ length (batch_jobs out.2) = S (length (batch_jobs db))
  /\ exists b, b ∈ batch_jobs out.2
               /\ b_id b = batchId
               /\ b_total_count b = N
               /\ b_generated_count b = N
               /\ b_status b = "completed".
Proof.
  intros Ht Hu Hrows Hok N batchId out.
  unfold out, handleGenerate. rewrite Ht, Hu.
  rewrite decide_False by (intros Hlen; apply Hrows, nil_length_inv, Hlen).
  unfold try_catch.
  erewrite bind_Return;
    [|unfold insert_batch; apply request_accepted, Hok].
  cbn [fst snd gen_random_uuid].
  erewrite bind_Return;
    [|apply insertCertificates_accepted; intros k; apply Hok].
  cbn [b_id].
  erewrite bind_Return;
    [|unfold update_batch; apply request_accepted; apply Hok].
  fold N.
  destruct db as [fl ids rq dr tpl flds batches certs]. simpl.
  split; [reflexivity|]. split; [reflexivity|].
  split; [rewrite length_app, length_fmap; reflexivity|].
  split; [lia|].
  split; [rewrite length_fmap, length_app; simpl; lia|].
  eexists. split.
  - rewrite fmap_app. apply elem_of_app. right. simpl.
    rewrite decide_True by reflexivity. apply list_elem_of_here.
  - simpl. auto.
Qed.

Lemma C2_generate_witness :
  let t := mkTemplateRecord
             (CertificatePreview.mkTemplate "t1" "Award" "url"
                (of_Z 800) (of_Z 600)) (Some []) in
  let p := mkProps (Some (mkUser "u1")) (Some [t]) in
  let rows : list (gmap string string) :=
    [{[ "name" := "Ann"; "email" := "ann@example.org" ]};
     {[ "name" := "Bob"; "email" := "bob@example.org" ]};
     {[ "name" := ""; "email" := "cy@example.org" ]}] in
  let st := handleCsvUpload p (mkParseResult rows (Some ["name"; "email"]))
              (initial (Some "t1")) in
  let db := mkDb (fun _ => None) (fun _ => "b1") 0 0 [] [] [] [] in
  let out := handleGenerate "1/1/2026" p st db in
  out.1 = Return (setStep 4 st)
  /\ length (certificates out.2) = 3%nat
  /\ c_recipient_name <$> certificates out.2
     = [Str "Ann"; Str "Bob"; Str "Unknown"]
  /\ exists b, b ∈ batch_jobs out.2
               /\ b_generated_count b = 3%nat /\ b_status b = "completed".
Proof.
  intros t p rows st db out.
  destruct (C2_generate "1/1/2026" p st db t (mkUser "u1"))
    as (Hret & Hcerts & Hlen & _ & _ & b & Hb & _ & _ & Hgen & Hstatus);
    [reflexivity | reflexivity | discriminate | reflexivity |].
  split; [exact Hret|]. split; [exact Hlen|].
  split; [unfold out; rewrite Hcerts; reflexivity|].
  exists b. split; [exact Hb|]. split; [exact Hgen | exact Hstatus].
Defined.

End Batch.

(** ** Saving a template *)

Section Saving.

Import Supabase TemplateEditor.

Lemma filter_fieldRow_same id (fs : list Field.t) :
  filter (fun r => f_template_id r = id) (fieldRow id <$> fs)
  = fieldRow id <$> fs.
Proof.
  induction fs as [|f fs IH]; [reflexivity|].
  rewrite fmap_cons, filter_cons_True by reflexivity. rewrite IH. reflexivity.
Qed.

Lemma filter_fieldRow_other id other (fs : list Field.t) :
  other <> id ->
  filter (fun r => f_template_id r = other) (fieldRow id <$> fs) = [].
Proof.
  intros Hne. induction fs as [|f fs IH]; [reflexivity|].
  rewrite fmap_cons, filter_cons_False; [exact IH|].
  simpl. intros Heq. apply Hne. symmetry. exact Heq.
Qed.

Lemma filter_deleted id (rows : list FieldRow) :
  filter (fun r => f_template_id r = id)
    (filter (fun r => f_template_id r <> id) rows) = [].
Proof.
  induction rows as [|r rows IH]; [reflexivity|].
  destruct (decide (f_template_id r = id)) as [Heq|Hne].
  - rewrite (filter_cons_False (fun r => f_template_id r <> id)); [exact IH|].
    intros Hn. apply Hn. exact Heq.
  - rewrite (filter_cons_True (fun r => f_template_id r <> id)) by exact Hne.
    rewrite filter_cons_False by exact Hne. exact IH.
Qed.

(** When the backend accepts every request, saving an existing template
    replaces its persisted fields by the working set and leaves the fields
    of every other template alone. *)
Lemma save_replaces_fields (form : Form) (st : State) (db : Db) (u : User)
    (id : uuid) :
  user form = Some u -> imageUrl form <> "" -> templateName form <> "" ->
  routeId form = Some id -> id <> "" ->
  (forall k, faults db k = None) ->
  (mutationFn form st db).1 = Return id
  /\ persistedFields id (mutationFn form st db).2 = fieldRow id <$> fields st
  /\ forall other, other <> id ->
       persistedFields other (mutationFn form st db).2
       = persistedFields other db.
Proof.
  intros Hu Hurl Hname Hid Hne Hok.
  unfold mutationFn, editedId, truthy_string. rewrite Hu, Hid.
  rewrite !bool_decide_eq_true_2 by assumption. cbn [negb orb].
  erewrite bind_Return.
  2:{ erewrite bind_Return;
        [|unfold update_template; apply request_accepted, Hok].
      cbn [fst snd].
      erewrite bind_Return;
        [|unfold delete_fields; apply request_accepted; apply Hok].
      reflexivity. }
  cbn [fst snd].
  destruct (fields st) as [|f fs] eqn:Hfs.
  - cbn [length Nat.ltb Nat.leb andb]. unfold mret, Async_ret, ret.
    destruct db as [fl ids rq dr tpl flds batches certs].
    unfold persistedFields. cbn.
    split; [reflexivity|]. split; [apply filter_deleted|].
    intros other Hother. apply list_filter_filter_l.
    intros r Hr. rewrite Hr. exact Hother.
  - cbn [length Nat.ltb Nat.leb andb].
    rewrite bool_decide_eq_true_2 by assumption.
    erewrite bind_Return;
      [|unfold insert_fields; apply request_accepted; apply Hok].
    unfold mret, Async_ret, ret.
    destruct db as [fl ids rq dr tpl flds batches certs].
    unfold persistedFields. cbn [fst snd template_fields set_template_fields
      set_requests set_certificate_templates requests certificate_templates
      faults uuids drawn batch_jobs certificates].
    split; [reflexivity|]. split.
    + rewrite filter_app, filter_deleted, filter_fieldRow_same. reflexivity.
    + intros other Hother.
      rewrite filter_app, filter_fieldRow_other, app_nil_r by exact Hother.
      apply list_filter_filter_l. intros r Hr. rewrite Hr. exact Hother.
Qed.

(** C7 (failing input). Template "t1" has one persisted field and the
    editor holds one other field; the backend rejects the second request
    of the save, the delete of the old fields, and accepts the rest. The
    save still returns the template id, so it counts as successful, and the
    persisted fields are then the old field followed by the new one, not the
    working set alone: the answer to the delete is never inspected. *)
Theorem C7_rejected_delete_keeps_old_fields :
  let old := mkFieldRow "t1" "name" "Participant Name" (of_Z 400) (of_Z 300)
               (of_Z 32) "Arial" "#000000" "center" None in
  let f := Field.mk "temp-1" "date" "Date" (of_Z 200) (of_Z 450) (of_Z 24)
             "Georgia" "#333333" "left" None in
  let form := mkForm (Some (mkUser "u1")) (Some "t1") "Award" "" "url" in
  let st := mkState (mkDimensions (of_Z 800) (of_Z 600)) [f] None in
  let db := mkDb (fun k => if decide (k = 1%nat) then Some "permission denied"
                           else None)
              (fun _ => "t2") 0 0
              [mkTemplateRow "t1" "u1" "Award" "" "url" (of_Z 800) (of_Z 600)]
              [old] [] [] in
  let out := mutationFn form st db in
  out.1 = Return "t1"
  /\ requests out.2 = 3%nat
  /\ persistedFields "t1" out.2 = [old; fieldRow "t1" f]
  /\ persistedFields "t1" out.2 <> fieldRow "t1" <$> fields st.
Proof. repeat split. discriminate. Qed.

End Saving.

(** * Further properties of the components *)

(** ** The preview at its edges *)

Section PreviewEdges.

Import CertificatePreview.

(** X3. When the index points at no row (no rows at all, or an index outside
    them), the current row is the empty object and a field, mapped or not,
    shows its placeholder; the one exception is a field mapped to a column
    that bears the name of an inherited member, which the empty object has
    too: it shows that member. *)
Theorem preview_without_row_shows_placeholders `{Engine} (p : Props)
    (s : State) :
  ~ (0 <= previewIndex s < Z.of_nat (length (csvData p)))%Z ->
  currentRow p s = ∅
  /\ (forall fieldKey,
        getFieldValue p s fieldKey
        = match fieldMapping p !! fieldKey with
          | Some column =>
              if decide (column ∈ Object_prototype) then Inherited column
              else Str (placeholder fieldKey)
          | None => Str (placeholder fieldKey)
          end)
  /\ (forall f,
        (forall column,
            fieldMapping p !! Field.field_key f = Some column ->
            column ∉ Object_prototype) ->
        Konva.text (renderField p s f)
        = Str (placeholder (Field.field_key f))).
Proof.
  intros Hout.
  assert (Hrow : currentRow p s = ∅).
  { unfold currentRow. case_decide as Hi; [|reflexivity].
    rewrite lookup_ge_None_2 by lia. reflexivity. }
  assert (Hval : forall fieldKey,
             getFieldValue p s fieldKey
             = match fieldMapping p !! fieldKey with
               | Some column =>
                   if decide (column ∈ Object_prototype) then Inherited column
                   else Str (placeholder fieldKey)
               | None => Str (placeholder fieldKey)
               end).
  { intros fieldKey. unfold getFieldValue. rewrite Hrow.
    destruct (fieldMapping p !! fieldKey) as [c|] eqn:Hm.
    - rewrite (get_own _ _ _ Hm). cbn [truthy_value toPropertyKey].
      unfold truthy_string. case_bool_decide as Hc.
      + unfold get. rewrite lookup_empty. case_decide; reflexivity.
      + subst c. rewrite decide_False; [reflexivity|].
        apply (bool_decide_unpack _). vm_compute. exact I.
    - unfold get at 1. rewrite Hm. case_decide as Hin; [|reflexivity].
      cbn [truthy_value].
      rewrite get_missing;
        [reflexivity | apply lookup_empty | apply toPropertyKey_fresh]. }
  split; [exact Hrow|]. split; [exact Hval|].
  intros f Hcol. cbn [renderField Konva.text]. rewrite Hval.
  destruct (fieldMapping p !! Field.field_key f) as [c|] eqn:Hm;
    [|reflexivity].
  rewrite decide_False by (apply Hcol; reflexivity). reflexivity.
Qed.

Lemma preview_without_row_shows_placeholders_witness :
  let p := mkProps None [] [] {[ "name" := "Name" ]} in
  getFieldValue p initial "name" = Str "{{name}}".
Proof.
  intros p.
  destruct (preview_without_row_shows_placeholders p initial) as (_ & Hv & _);
    [simpl; lia|].
  rewrite Hv. reflexivity.
Defined.

(** X4. With the index inside the rows, a navigation button is disabled
    exactly when its handler would change nothing, and an enabled button
    moves the index by one. *)
Theorem nav_button_disabled_iff_noop (p : Props) (s : State) :
  (0 <= previewIndex s <= Z.of_nat (length (csvData p)) - 1)%Z ->
  (prevDisabled s = true <-> handlePrev s = s)
  /\ (nextDisabled p s = true <-> handleNext p s = s)
  /\ (prevDisabled s = false ->
      previewIndex (handlePrev s) = (previewIndex s - 1)%Z)
  /\ (nextDisabled p s = false ->
      previewIndex (handleNext p s) = (previewIndex s + 1)%Z).
Proof.
  intros Hin. destruct s as [i cw]. unfold prevDisabled, nextDisabled,
    handlePrev, handleNext. simpl in *.
  split; [|split; [|split]].
  - rewrite bool_decide_eq_true. split.
    + intros ->. reflexivity.
    + intros [= Hi]. lia.
  - rewrite bool_decide_eq_true. split.
    + intros Hi. f_equal. lia.
    + intros [= Hi]. lia.
  - rewrite bool_decide_eq_false. lia.
  - rewrite bool_decide_eq_false. lia.
Qed.

Lemma nav_button_disabled_iff_noop_witness :
  let p := mkProps None []
             [{[ "name" := "Ann" ]}; ({[ "name" := "Bob" ]} : gmap string string)]
             ∅ in
  handlePrev initial = initial
  /\ previewIndex (handleNext p initial) = 1%Z.
Proof.
  intros p.
  destruct (nav_button_disabled_iff_noop p initial) as (Hp & _ & _ & Hn);
    [simpl; lia|].
  split; [apply Hp; reflexivity | apply Hn; reflexivity].
Defined.

End PreviewEdges.

(** ** The editor: adding fields and keeping the selection *)

Section EditorSession.

Import TemplateEditor.

Lemma filter_keeps_all {A} (P : A -> Prop) `{forall x, Decision (P x)}
    (l : list A) :
  (forall x, x ∈ l -> P x) -> filter P l = l.
Proof.
  induction l as [|a l IH]; intros Hall; [reflexivity|].
  rewrite filter_cons_True by (apply Hall, list_elem_of_here).
  f_equal. apply IH. intros x Hx. apply Hall, list_elem_of_further, Hx.
Qed.

Lemma find_app_skip {A} (f : A -> bool) (l l' : list A) :
  (forall x, x ∈ l -> f x = false) -> find f (l ++ l') = find f l'.
Proof.
  induction l as [|a l IH]; intros Hall; [reflexivity|].
  simpl. rewrite (Hall a) by apply list_elem_of_here.
  apply IH. intros x Hx. apply Hall, list_elem_of_further, Hx.
Qed.

Lemma find_id_is_Some (i : string) (l : list Field.t) :
  is_Some (find (fun f => bool_decide (Field.id f = i)) l)
  <-> i ∈ Field.id <$> l.
Proof.
  induction l as [|a l IH]; simpl.
  - split; [intros [x Hx]; discriminate | intros Hin].
    exfalso. revert Hin. apply not_elem_of_nil.
  - case_bool_decide as Ha.
    + split; [intros _; subst i; apply list_elem_of_here | eauto].
    + rewrite IH. rewrite elem_of_cons. split; [auto|].
      intros [Heq|Hin]; [congruence | exact Hin].
Qed.

(** X5. A new field is appended after the existing ones, which stay as they
    are, sits at the centre of the image and becomes the selection. When no
    field has its id yet, it is the field the property panel shows, and
    removing it again gives back the former list, with nothing selected.
    Fields added at different times get different ids. *)
Theorem addField_appends_centred_selected (now : N) (preset : option Preset)
    (st : State) (W H : Qc) :
  imageDimensions st = mkDimensions (Fin W) (Fin H) ->
  Field.id (newField now preset st) ∉ Field.id <$> fields st ->
  let f := newField now preset st in
  let st' := addField now preset st in
  length (fields st') = S (length (fields st))
  /\ (forall i g, fields st !! i = Some g -> fields st' !! i = Some g)
  /\ last (fields st') = Some f
  /\ Field.x f = Fin (W / Spec.Qc_of_Z 2)
  /\ Field.y f = Fin (H / Spec.Qc_of_Z 2)
  /\ selectedFieldId st' = Some (Field.id f)
  /\ selectedField st' = Some f
  /\ fields (removeField (Field.id f) st') = fields st
  /\ selectedFieldId (removeField (Field.id f) st') = None
  /\ (forall now' preset', now' <> now ->
        Field.id (newField now' preset' st') <> Field.id f).
Proof.
  intros Hdim Hfresh f st'.
  assert (Hother : forall g, g ∈ fields st -> Field.id g <> Field.id f).
  { intros g Hg Heq. apply Hfresh. unfold f in Heq. rewrite <- Heq.
    apply list_elem_of_fmap. exists g. split; [reflexivity | exact Hg]. }
  assert (H2 : Spec.Qc_of_Z 2 <> 0) by discriminate.
  split; [unfold st'; simpl; rewrite length_app; simpl; lia|].
  split; [intros i g Hg; unfold st'; simpl;
          apply lookup_app_l_Some; exact Hg|].
  split; [apply last_snoc|].
  split.
  { unfold f, newField. cbn [Field.x]. rewrite Hdim. cbn [width div].
    unfold of_Z. rewrite decide_False by exact H2. reflexivity. }
  split.
  { unfold f, newField. cbn [Field.y]. rewrite Hdim. cbn [height div].
    unfold of_Z. rewrite decide_False by exact H2. reflexivity. }
  split; [reflexivity|].
  split.
  { unfold selectedField, st'. cbn [selectedFieldId fields addField].
    rewrite find_app_skip.
    - simpl. rewrite bool_decide_eq_true_2 by reflexivity. reflexivity.
    - intros g Hg. apply bool_decide_eq_false_2. apply Hother. exact Hg. }
  split.
  { unfold removeField, st'. cbn [fields addField].
    rewrite filter_app. rewrite (filter_keeps_all _ (fields st)) by exact Hother.
    rewrite filter_cons_False, filter_nil by (intros Hn; apply Hn; reflexivity).
    apply app_nil_r. }
  split.
  { unfold removeField. cbn [selectedFieldId].
    destruct (decide (selectedFieldId st' = Some (Field.id f))) as [_|Hd];
      [reflexivity | exfalso; apply Hd; reflexivity]. }
  intros now' preset' Hne Heq. apply Hne.
  unfold f, newField in Heq. cbn [Field.id] in Heq.
  apply (inj (String.append "temp-")) in Heq.
  apply (inj pretty) in Heq. exact Heq.
Qed.

Lemma addField_appends_centred_selected_witness :
  let now := 1730505600123%N in
  let st' := addField now (Some (mkPreset "name" "Participant Name")) initial in
  let f := newField now (Some (mkPreset "name" "Participant Name")) initial in
  Field.id f = "temp-1730505600123"
  /\ Field.field_key f = "name"
  /\ Field.x f = of_Z 400 /\ Field.y f = of_Z 300
  /\ selectedField st' = Some f
  /\ fields (removeField (Field.id f) st') = [].
Proof.
  intros now st' f.
  destruct (addField_appends_centred_selected now
              (Some (mkPreset "name" "Participant Name")) initial
              (Spec.Qc_of_Z 800) (Spec.Qc_of_Z 600))
    as (_ & _ & _ & Hx & Hy & _ & Hsel & Hrem & _);
    [reflexivity | apply not_elem_of_nil |].
  split; [reflexivity|]. split; [reflexivity|].
  split; [unfold f; rewrite Hx; apply (bool_decide_unpack _);
          vm_compute; exact I|].
  split; [unfold f; rewrite Hy; apply (bool_decide_unpack _);
          vm_compute; exact I|].
  split; [exact Hsel | exact Hrem].
Defined.

Lemma spread_keeps_id f updates :
  id updates = None -> Field.id (spread f updates) = Field.id f.
Proof. intros Hid. unfold spread. cbn [Field.id]. rewrite Hid. reflexivity. Qed.

Lemma updateField_keeps_ids fieldId updates st :
  id updates = None ->
  Field.id <$> fields (updateField fieldId updates st) = Field.id <$> fields st.
Proof.
  intros Hid. unfold updateField. cbn [fields].
  rewrite <- list_fmap_compose. apply list_fmap_ext.
  intros i f _. simpl. case_decide; [apply spread_keeps_id, Hid | reflexivity].
Qed.

(** One step keeps the selection among the fields. *)
Lemma handle_keeps_selection st e :
  possible st e ->
  (forall i, selectedFieldId st = Some i -> i ∈ Field.id <$> fields st) ->
  forall i, selectedFieldId (handle st e) = Some i ->
            i ∈ Field.id <$> fields (handle st e).
Proof.
  intros Hposs Hinv i.
  destruct e as [now preset|fieldId updates|fieldId|fieldId| |fieldId target];
    cbn [handle].
  - cbn [addField selectedFieldId fields]. intros [= <-].
    rewrite fmap_app. apply elem_of_app. right. apply list_elem_of_here.
  - rewrite (updateField_keeps_ids fieldId updates st Hposs). apply Hinv.
  - unfold removeField. cbn [selectedFieldId fields].
    case_decide as Hsel; [discriminate|]. intros Hi.
    pose proof (Hinv i Hi) as Hin.
    apply list_elem_of_fmap in Hin as (f & Hif & Hf).
    apply list_elem_of_fmap. exists f. split; [exact Hif|].
    apply list_elem_of_filter. split; [|exact Hf].
    intros Heq. apply Hsel. rewrite Hi, Hif, Heq. reflexivity.
  - cbn [setSelectedFieldId selectedFieldId fields]. intros [= <-]. exact Hposs.
  - discriminate.
  - unfold handleDragEnd. rewrite updateField_keeps_ids by reflexivity.
    apply Hinv.
Qed.

Lemma handle_keeps_dimensions st e :
  imageDimensions (handle st e) = imageDimensions st.
Proof. destruct e; reflexivity. Qed.

(** X6. Through every sequence of canvas and panel events, whenever a field
    is selected the property panel has that field to show, and the image
    dimensions, hence the scale, stay as they were. *)
Theorem selection_always_has_its_field (st : State) (events : list Event) :
  (selectedFieldId st = None \/ is_Some (selectedField st)) ->
  session st events ->
  (selectedFieldId (run st events) = None
   \/ is_Some (selectedField (run st events)))
  /\ imageDimensions (run st events) = imageDimensions st
  /\ scale (run st events) = scale st.
Proof.
  intros Hinit Hsession.
  assert (Hinv0 : forall i, selectedFieldId st = Some i ->
                            i ∈ Field.id <$> fields st).
  { intros i Hi. destruct Hinit as [Hnone|Hsome]; [congruence|].
    unfold selectedField in Hsome. rewrite Hi in Hsome.
    apply find_id_is_Some, Hsome. }
  clear Hinit.
  assert (Hrun : (forall i, selectedFieldId (run st events) = Some i ->
                            i ∈ Field.id <$> fields (run st events))
                 /\ imageDimensions (run st events) = imageDimensions st).
  { revert st Hsession Hinv0.
    induction events as [|e events IH]; intros st Hsession Hinv0.
    - split; [exact Hinv0 | reflexivity].
    - destruct Hsession as [Hposs Hrest]. unfold run. cbn [fold_left].
      destruct (IH (handle st e) Hrest
                  (handle_keeps_selection st e Hposs Hinv0)) as [Hsel Hdim].
      split; [exact Hsel|].
      unfold run in Hdim. rewrite Hdim. apply handle_keeps_dimensions. }
  destruct Hrun as [Hsel Hdim].
  split; [|split; [exact Hdim|]].
  - destruct (selectedFieldId (run st events)) as [i|] eqn:Hi; [|left; reflexivity].
    right. unfold selectedField. rewrite Hi.
    apply find_id_is_Some, Hsel. reflexivity.
  - unfold scale, widthRatio, heightRatio. rewrite Hdim. reflexivity.
Qed.

Lemma selection_always_has_its_field_witness :
  let events := [AddField 5 None;
                 AddField 6 (Some (mkPreset "date" "Date"));
                 SelectField "temp-5";
                 RemoveField "temp-6";
                 UpdateField "temp-5"
                   (mkPartial None (Some "title") None None None None None
                      None None None)] in
  is_Some (selectedField (run initial events))
  /\ scale (run initial events) = scale initial.
Proof.
  intros events.
  destruct (selection_always_has_its_field initial events)
    as (Hsel & _ & Hscale).
  - left. reflexivity.
  - unfold events. cbn [session possible].
    repeat split; try reflexivity;
      apply (bool_decide_unpack _); vm_compute; exact I.
  - split; [|exact Hscale].
    destruct Hsel as [Hnone|Hsome]; [discriminate Hnone | exact Hsome].
Defined.

End EditorSession.

(** ** Saving a template: validation, creation and failures *)

Section SavingEdges.

Import Supabase TemplateEditor.

(** X7. A save without a signed-in user, an image or a name throws "Missing
    required fields" before any request: the backend is left exactly as it
    was. *)
Theorem save_validates_before_any_request (form : Form) (st : State) (db : Db) :
  user form = None \/ imageUrl form = "" \/ templateName form = "" ->
  mutationFn form st db = (Throw "Missing required fields", db).
Proof.
  intros Hmissing. unfold mutationFn, truthy_string.
  destruct (user form) as [u|]; [|reflexivity].
  destruct Hmissing as [Hu|[Hurl|Hname]]; [discriminate| |].
  - rewrite (bool_decide_eq_false_2 (imageUrl form <> ""))
      by (intros Hn; apply Hn, Hurl).
    reflexivity.
  - rewrite (bool_decide_eq_false_2 (templateName form <> ""))
      by (intros Hn; apply Hn, Hname).
    rewrite orb_true_r. reflexivity.
Qed.

Lemma save_validates_before_any_request_witness :
  let form := mkForm (Some (mkUser "u1")) None "" "" "url" in
  let st := mkState (mkDimensions (of_Z 800) (of_Z 600)) [] None in
  let db := mkDb (fun _ => None) (fun _ => "t1") 0 0 [] [] [] [] in
  mutationFn form st db = (Throw "Missing required fields", db).
Proof.
  intros form st db. apply save_validates_before_any_request.
  right. right. reflexivity.
Defined.

(** X8. On a new template (no id in the route) and an accepting backend, a save
    inserts one template row owned by the user, with the name, image and
    dimensions of the form, under the id the database draws, returns that
    id, and persists the working set under it; existing templates and the
    fields of other templates are untouched. *)
Theorem save_creates_template (form : Form) (st : State) (db : Db) (u : User) :
  user form = Some u -> imageUrl form <> "" -> templateName form <> "" ->
  editedId form = None ->
  (forall k, faults db k = None) ->
  let newId := uuids db (drawn db) in
  newId <> "" ->
  persistedFields newId db = [] ->
  let out := mutationFn form st db in
  out.1 = Return newId
  /\ certificate_templates out.2
     = certificate_templates db
       ++ [mkTemplateRow newId (user_id u) (templateName form)
             (templateDescription form) (imageUrl form)
             (width (imageDimensions st)) (height (imageDimensions st))]
  /\ persistedFields newId out.2 = fieldRow newId <$> fields st
  /\ (forall other, other <> newId ->
        persistedFields other out.2 = persistedFields other db)
  /\ requests out.2
     = (requests db + if decide (fields st = []) then 1 else 2)%nat.
Proof.
  intros Hu Hurl Hname Hnew Hok newId Hid Hstale out.
  unfold out, mutationFn, truthy_string. rewrite Hu, Hnew.
  rewrite !bool_decide_eq_true_2 by assumption. cbn [negb orb].
  erewrite bind_Return.
  2:{ erewrite bind_Return;
        [|unfold insert_template; apply request_accepted, Hok].
      cbn [fst snd gen_random_uuid]. reflexivity. }
  cbn [t_id]. fold newId.
  destruct (fields st) as [|f fs] eqn:Hfs.
  - cbn [length Nat.ltb Nat.leb andb]. unfold mret, Async_ret, ret.
    destruct db as [fl ids rq dr tpl flds batches certs].
    unfold persistedFields in *. cbn in *.
    split; [reflexivity|]. split; [reflexivity|]. split; [exact Hstale|].
    split; [reflexivity|]. rewrite decide_True by reflexivity. lia.
  - cbn [length Nat.ltb Nat.leb andb].
    rewrite bool_decide_eq_true_2 by assumption.
    erewrite bind_Return;
      [|unfold insert_fields; apply request_accepted; apply Hok].
    unfold mret, Async_ret, ret.
    destruct db as [fl ids rq dr tpl flds batches certs].
    unfold persistedFields in *.
    cbn [fst snd template_fields set_template_fields set_drawn
      set_requests set_certificate_templates requests certificate_templates
      faults uuids drawn batch_jobs certificates] in *.
    split; [reflexivity|]. split; [reflexivity|]. split.
    + rewrite filter_app, Hstale, filter_fieldRow_same. reflexivity.
    + split.
      * intros other Hother.
        rewrite filter_app, filter_fieldRow_other, app_nil_r by exact Hother.
        reflexivity.
      * rewrite decide_False by discriminate. lia.
Qed.

Lemma save_creates_template_witness :
  let f := Field.mk "temp-1" "date" "Date" (of_Z 200) (of_Z 450) (of_Z 24)
             "Georgia" "#333333" "left" None in
  let form := mkForm (Some (mkUser "u1")) None "Award" "" "url" in
  let st := mkState (mkDimensions (of_Z 800) (of_Z 600)) [f] None in
  let db := mkDb (fun _ => None) (fun _ => "t9") 0 0 [] [] [] [] in
  (mutationFn form st db).1 = Return "t9"
  /\ persistedFields "t9" (mutationFn form st db).2 = [fieldRow "t9" f].
Proof.
  intros f form st db.
  destruct (save_creates_template form st db (mkUser "u1"))
    as (Hret & _ & Hfields & _);
    [reflexivity | discriminate | discriminate | reflexivity
    | reflexivity | discriminate | reflexivity |].
  split; [exact Hret | exact Hfields].
Defined.

(** X9. In edit mode, a rejected template update aborts the save at once: the
    error is thrown after that single request and no table has changed, so
    the persisted fields are all still there. *)
Theorem save_aborts_on_rejected_update (form : Form) (st : State) (db : Db)
    (u : User) (id : uuid) (e : Error) :
  user form = Some u -> imageUrl form <> "" -> templateName form <> "" ->
  editedId form = Some id ->
  faults db (requests db) = Some e ->
  mutationFn form st db = (Throw e, set_requests (S (requests db)) db).
Proof.
  intros Hu Hurl Hname Hid Hko.
  unfold mutationFn, truthy_string. rewrite Hu, Hid.
  rewrite !bool_decide_eq_true_2 by assumption. cbn [negb orb].
  unfold mbind, Async_bind, bind, update_template.
  rewrite (request_rejected _ db e Hko). reflexivity.
Qed.

Lemma save_aborts_on_rejected_update_witness :
  let old := mkFieldRow "t1" "name" "Participant Name" (of_Z 400) (of_Z 300)
               (of_Z 32) "Arial" "#000000" "center" None in
  let form := mkForm (Some (mkUser "u1")) (Some "t1") "Award" "" "url" in
  let st := mkState (mkDimensions (of_Z 800) (of_Z 600)) [] None in
  let db := mkDb (fun _ => Some "offline") (fun _ => "t2") 0 0 [] [old] [] [] in
  (mutationFn form st db).1 = Throw "offline"
  /\ persistedFields "t1" (mutationFn form st db).2 = [old].
Proof.
  intros old form st db.
  rewrite (save_aborts_on_rejected_update form st db (mkUser "u1") "t1"
             "offline");
    [|reflexivity | discriminate | discriminate | reflexivity | reflexivity].
  split; reflexivity.
Defined.

(** X10. In edit mode, when the update and the delete are accepted and the
    insert of the working set is rejected, the save throws that error and
    the template is left without any persisted field: the former fields are
    gone and the new ones were not written. Nothing is rolled back. *)
Theorem save_rejected_insert_loses_fields (form : Form) (st : State) (db : Db)
    (u : User) (id : uuid) (e : Error) :
  user form = Some u -> imageUrl form <> "" -> templateName form <> "" ->
  editedId form = Some id -> id <> "" ->
  fields st <> [] ->
  faults db (requests db) = None ->
  faults db (S (requests db)) = None ->
  faults db (S (S (requests db))) = Some e ->
  (mutationFn form st db).1 = Throw e
  /\ persistedFields id (mutationFn form st db).2 = []
  /\ (forall other, other <> id ->
        persistedFields other (mutationFn form st db).2
        = persistedFields other db)
  /\ requests (mutationFn form st db).2 = (requests db + 3)%nat.
Proof.
  intros Hu Hurl Hname Hid Hne Hfs Hok0 Hok1 Hko2.
  unfold mutationFn, truthy_string. rewrite Hu, Hid.
  rewrite !bool_decide_eq_true_2 by assumption. cbn [negb orb].
  erewrite bind_Return.
  2:{ erewrite bind_Return;
        [|unfold update_template; apply request_accepted, Hok0].
      cbn [fst snd].
      erewrite bind_Return;
        [|unfold delete_fields; apply request_accepted; exact Hok1].
      reflexivity. }
  cbn [fst snd].
  destruct (fields st) as [|f fs]; [contradiction|].
  cbn [length Nat.ltb Nat.leb andb].
  rewrite bool_decide_eq_true_2 by assumption.
  erewrite bind_Return;
    [|unfold insert_fields; apply request_rejected; exact Hko2].
  unfold throw.
  destruct db as [fl ids rq dr tpl flds batches certs].
  unfold persistedFields. cbn.
  split; [reflexivity|]. split; [apply filter_deleted|].
  split; [|lia].
  intros other Hother. apply list_filter_filter_l.
  intros r Hr. rewrite Hr. exact Hother.
Qed.

Lemma save_rejected_insert_loses_fields_witness :
  let old := mkFieldRow "t1" "name" "Participant Name" (of_Z 400) (of_Z 300)
               (of_Z 32) "Arial" "#000000" "center" None in
  let f := Field.mk "temp-1" "date" "Date" (of_Z 200) (of_Z 450) (of_Z 24)
             "Georgia" "#333333" "left" None in
  let form := mkForm (Some (mkUser "u1")) (Some "t1") "Award" "" "url" in
  let st := mkState (mkDimensions (of_Z 800) (of_Z 600)) [f] None in
  let db := mkDb (fun k => if decide (k = 2%nat) then Some "too large"
                           else None)
              (fun _ => "t2") 0 0 [] [old] [] [] in
  (mutationFn form st db).1 = Throw "too large"
  /\ persistedFields "t1" (mutationFn form st db).2 = [].
Proof.
  intros old f form st db.
  destruct (save_rejected_insert_loses_fields form st db (mkUser "u1") "t1"
              "too large") as (Hthrow & Hlost & _);
    [reflexivity | discriminate | discriminate | reflexivity | discriminate
    | discriminate | reflexivity | reflexivity | reflexivity |].
  split; [exact Hthrow | exact Hlost].
Defined.

(** X11. Whatever the backend answers, a save sends at most three requests and
    writes neither batches nor certificates nor the fields of any template
    but the one it saves (the edited one, or the one it creates). *)
Theorem save_touches_only_its_template (form : Form) (st : State) (db : Db) :
  let target := default (uuids db (drawn db)) (editedId form) in
  batch_jobs (mutationFn form st db).2 = batch_jobs db
  /\ certificates (mutationFn form st db).2 = certificates db
  /\ (forall other, other <> target ->
        persistedFields other (mutationFn form st db).2
        = persistedFields other db)
  /\ (requests db <= requests (mutationFn form st db).2 <= requests db + 3)%nat.
Proof.
  intros target. unfold target. clear target.
  destruct db as [fl ids rq dr tpl flds batches certs].
  unfold mutationFn.
  destruct (user form) as [u|];
    [|cbn; repeat split; try reflexivity; lia].
  destruct (negb (truthy_string (imageUrl form))
            || negb (truthy_string (templateName form)));
    [cbn; repeat split; try reflexivity; lia|].
  unfold persistedFields, mbind, Async_bind, bind, update_template,
    delete_fields, insert_template, insert_fields, request, mret, Async_ret,
    ret, throw.
  destruct (editedId form) as [id|]; cbn [default uuids drawn];
    [destruct (truthy_string id) eqn:E
    |destruct (truthy_string (ids dr)) eqn:E];
    destruct (fields st) as [|f fs];
    destruct (fl rq) eqn:F0, (fl (S rq)) eqn:F1, (fl (S (S rq))) eqn:F2;
    repeat (cbn -[truthy_string filter list_filter];
            rewrite ?F0, ?F1, ?F2, ?E);
    (split; [reflexivity|]); (split; [reflexivity|]);
    (split; [|lia]); intros other Hother;
    rewrite ?filter_app, ?filter_cons_False, ?filter_fieldRow_other,
      ?app_nil_r
      by first [exact Hother
               | cbn; intros Heq; apply Hother; symmetry; exact Heq];
    try reflexivity;
    apply list_filter_filter_l; intros r Hr; rewrite Hr; exact Hother.
Qed.

End SavingEdges.

(** ** Generating a batch when requests fail *)

Section BatchEdges.

Import Supabase Generate.

Lemma accepted_length {A} faults k (l : list A) :
  (length (Spec.accepted faults k l) <= length l)%nat.
Proof.
  revert k. induction l as [|a l IH]; intros k; simpl; [lia|].
  destruct (faults k); simpl; specialize (IH (S k)); lia.
Qed.

Lemma accepted_all {A} faults k (l : list A) :
  (forall j, faults j = None) -> Spec.accepted faults k l = l.
Proof.
  intros Hok. revert k. induction l as [|a l IH]; intros k; simpl;
    [reflexivity|].
  rewrite Hok, IH. reflexivity.
Qed.

(** The loop under any fault schedule: one request per row, and a
    certificate for exactly the rows whose insert is accepted, in order. *)
Lemma insertCertificates_any batchId st rows db :
  insertCertificates batchId st rows db
  = (Return tt,
     set_certificates
       (certificates db
        ++ (certificateRow batchId st
              <$> Spec.accepted (faults db) (requests db) rows))
       (set_requests (requests db + length rows) db)).
Proof.
  revert db. induction rows as [|row rows IH]; intros db.
  - destruct db. unfold set_certificates, set_requests. simpl.
    rewrite app_nil_r, Nat.add_0_r. reflexivity.
  - cbn [insertCertificates Spec.accepted].
    destruct (faults db (requests db)) as [e|] eqn:Hf.
    + erewrite bind_Return;
        [|unfold insert_certificate; apply request_rejected; exact Hf].
      rewrite IH. destruct db. unfold set_certificates, set_requests. simpl.
      do 4 f_equal. lia.
    + erewrite bind_Return;
        [|unfold insert_certificate; apply request_accepted; exact Hf].
      cbn [fst snd]. rewrite IH.
      destruct db. unfold set_certificates, set_requests. simpl.
      rewrite <- app_assoc. do 4 f_equal. lia.
Qed.

(** X12. [handleGenerate] never throws. When the insert of the batch is
    rejected, or no user is signed in, the page stays on its step and
    nothing is written: no batch, no certificate. *)
Theorem generate_rejected_batch_writes_nothing (today : string) (p : Props)
    (st : State) (db : Db) (t : TemplateRecord) :
  selectedTemplate p st = Some t ->
  csvData st <> [] ->
  (user p = None \/ is_Some (faults db (requests db))) ->
  let out := handleGenerate today p st db in
  out.1 = Return st
  /\ batch_jobs out.2 = batch_jobs db
  /\ certificates out.2 = certificates db
  /\ (requests out.2 <= S (requests db))%nat.
Proof.
  intros Ht Hrows Hfail out. unfold out, handleGenerate. rewrite Ht.
  rewrite decide_False by (intros Hlen; apply Hrows, nil_length_inv, Hlen).
  unfold try_catch.
  destruct (user p) as [u|].
  - destruct Hfail as [Hu|[e He]]; [discriminate|].
    erewrite bind_Return;
      [|unfold insert_batch; apply request_rejected; exact He].
    destruct db. simpl. repeat split; lia.
  - destruct db. simpl. repeat split; lia.
Qed.

Lemma generate_rejected_batch_writes_nothing_witness :
  let t := mkTemplateRecord
             (CertificatePreview.mkTemplate "t1" "Award" "url"
                (of_Z 800) (of_Z 600)) (Some []) in
  let p := mkProps (Some (mkUser "u1")) (Some [t]) in
  let st := handleCsvUpload p
              (mkParseResult [{[ "name" := "Ann" ]}] (Some ["name"]))
              (initial (Some "t1")) in
  let db := mkDb (fun _ => Some "offline") (fun _ => "b1") 0 0 [] [] [] [] in
  (handleGenerate "1/1/2026" p st db).1 = Return st
  /\ batch_jobs (handleGenerate "1/1/2026" p st db).2 = [].
Proof.
  intros t p st db.
  destruct (generate_rejected_batch_writes_nothing "1/1/2026" p st db t)
    as (Hret & Hb & _);
    [reflexivity | discriminate | right; eexists; reflexivity |].
  split; [exact Hret | exact Hb].
Defined.

(** X13. Once the batch is inserted, [handleGenerate] always ends on the last
    step, after one request per row and the final update, whatever the
    answers: a certificate exists for exactly the rows whose insert was
    accepted, in row order, so there may be fewer than N; the batch counts N
    as generated and is "completed" if the final update is accepted, and
    stays "processing" with 0 generated if it is rejected. Templates and
    their fields are never written. *)
Theorem generate_under_faults (today : string) (p : Props) (st : State)
    (db : Db) (t : TemplateRecord) (u : User) :
  selectedTemplate p st = Some t ->
  user p = Some u ->
  csvData st <> [] ->
  faults db (requests db) = None ->
  let N := length (csvData st) in
  let batchId := uuids db (drawn db) in
  let out := handleGenerate today p st db in
  out.1 = Return (setStep 4 st)
  /\ requests out.2 = (requests db + N + 2)%nat
  /\ certificates out.2
     = certificates db
       ++ (certificateRow batchId st
             <$> Spec.accepted (faults db) (S (requests db)) (csvData st))
  /\ (length (certificates out.2) <= length (certificates db) + N)%nat
  /\ certificate_templates out.2 = certificate_templates db
  /\ Supabase.template_fields out.2 = Supabase.template_fields db
  /\ exists b, b ∈ batch_jobs out.2
       /\ b_id b = batchId /\ b_total_count b = N
       /\ (faults db (S (requests db) + N) = None ->
           b_status b = "completed" /\ b_generated_count b = N)
       /\ (is_Some (faults db (S (requests db) + N)) ->
           b_status b = "processing" /\ b_generated_count b = 0%nat).
Proof.
  intros Ht Hu Hrows Hok N batchId out.
  unfold out, handleGenerate. rewrite Ht, Hu.
  rewrite decide_False by (intros Hlen; apply Hrows, nil_length_inv, Hlen).
  unfold try_catch.
  erewrite bind_Return;
    [|unfold insert_batch; apply request_accepted, Hok].
  cbn [fst snd gen_random_uuid].
  erewrite bind_Return; [|apply insertCertificates_any].
  cbn [b_id]. fold N.
  destruct db as [fl ids rq dr tpl flds batches certs].
  cbn [faults requests uuids drawn set_requests set_drawn set_batch_jobs
       set_certificates certificates batch_jobs] in *.
  unfold mbind, Async_bind, bind, update_batch, request, mret, Async_ret, ret.
  cbn [faults requests set_requests set_certificates].
  replace (S rq + N)%nat with (S (rq + N)) by lia.
  destruct (fl (S (rq + N))) as [e|] eqn:Hupd; cbn; rewrite ?Hupd; cbn.
  - split; [reflexivity|]. split; [lia|]. split; [reflexivity|].
    split; [rewrite length_app, length_fmap;
            pose proof (accepted_length fl (S rq) (csvData st)) as Hlen;
            unfold N; lia|].
    split; [reflexivity|]. split; [reflexivity|].
    eexists. split; [apply elem_of_app; right; apply list_elem_of_here|].
    cbn. split; [reflexivity|]. split; [reflexivity|].
    split; [discriminate|]. intros _. split; reflexivity.
  - split; [reflexivity|]. split; [lia|]. split; [reflexivity|].
    split; [rewrite length_app, length_fmap;
            pose proof (accepted_length fl (S rq) (csvData st)) as Hlen;
            unfold N; lia|].
    split; [reflexivity|]. split; [reflexivity|].
    eexists. split.
    + rewrite fmap_app. apply elem_of_app. right. cbn.
      rewrite decide_True by reflexivity. apply list_elem_of_here.
    + cbn. split; [reflexivity|]. split; [reflexivity|].
      split; [intros _; split; reflexivity|].
      intros [x Hx]. discriminate.
Qed.

Lemma generate_under_faults_witness :
  let t := mkTemplateRecord
             (CertificatePreview.mkTemplate "t1" "Award" "url"
                (of_Z 800) (of_Z 600)) (Some []) in
  let p := mkProps (Some (mkUser "u1")) (Some [t]) in
  let rows : list (gmap string string) :=
    [{[ "name" := "Ann" ]}; {[ "name" := "Bob" ]}; {[ "name" := "Cy" ]}] in
  let st := handleCsvUpload p (mkParseResult rows (Some ["name"]))
              (initial (Some "t1")) in
  let db := mkDb (fun k => if decide (k = 2%nat) then Some "timeout" else None)
              (fun _ => "b1") 0 0 [] [] [] [] in
  let out := handleGenerate "1/1/2026" p st db in
  out.1 = Return (setStep 4 st)
  /\ c_recipient_name <$> certificates out.2 = [Str "Ann"; Str "Cy"]
  /\ exists b, b ∈ batch_jobs out.2
               /\ b_status b = "completed" /\ b_generated_count b = 3%nat.
Proof.
  intros t p rows st db out.
  destruct (generate_under_faults "1/1/2026" p st db t (mkUser "u1"))
    as (Hret & _ & Hcerts & _ & _ & _ & b & Hb & _ & _ & Hdone & _);
    [reflexivity | reflexivity | discriminate | reflexivity |].
  split; [exact Hret|].
  split; [unfold out; rewrite Hcerts; reflexivity|].
  exists b. split; [exact Hb|]. apply Hdone. reflexivity.
Defined.

End BatchEdges.

(** ** The recipient of a certificate *)

Section Recipient.

Import Supabase Generate.

(** X14. The recipient name handed to the insert of a certificate record
    is read from the row under the column mapped to the field key "name"
    (under the column "name" when that key has no mapping or an empty
    one). It is the cell when the row has a non-empty cell there, and
    "Unknown" when the cell is empty, or is missing and the column does
    not bear the name of an inherited member; so for such a column it is
    a non-empty string. When the cell is missing and the column bears the
    name of an inherited member, it is that member, not a string. The
    record keeps the row as it is, starts "pending", and has no address
    when emails are switched off. *)
Theorem recipient_name_of_row (batchId : uuid) (st : State)
    (row : gmap string string) :
  let c := certificateRow batchId st row in
  let column := or_else_string (fieldMapping st !! "name") "name" in
  (forall v, row !! column = Some v -> v <> "" -> c_recipient_name c = Str v)
  /\ (row !! column = Some "" -> c_recipient_name c = Str "Unknown")
  /\ (row !! column = None -> column ∉ Object_prototype ->
      c_recipient_name c = Str "Unknown")
  /\ (row !! column = None -> column ∈ Object_prototype ->
      c_recipient_name c = Inherited column)
  /\ (column ∉ Object_prototype ->
      exists v, c_recipient_name c = Str v /\ v <> "")
  /\ c_recipient_data c = row
  /\ c_email_status c = "pending"
  /\ c_batch_id c = batchId
  /\ (sendEmails st = false -> c_recipient_email c = None).
Proof.
  intros c column. unfold c, certificateRow.
  cbn [c_recipient_name c_recipient_data c_email_status c_batch_id
       c_recipient_email].
  change (match fieldMapping st !! "name" with
          | Some c0 => if truthy_string c0 then c0 else "name"
          | None => "name"
          end) with column.
  assert (Hcell : forall v, row !! column = Some v -> v <> "" ->
            match get row column with
            | Some v0 => if truthy_value v0 then v0 else Str "Unknown"
            | None => Str "Unknown"
            end = Str v).
  { intros v Hrow Hv. rewrite (get_own _ _ _ Hrow). cbn [truthy_value].
    unfold truthy_string. rewrite bool_decide_eq_true_2 by exact Hv.
    reflexivity. }
  assert (Hempty : row !! column = Some "" ->
            match get row column with
            | Some v0 => if truthy_value v0 then v0 else Str "Unknown"
            | None => Str "Unknown"
            end = Str "Unknown").
  { intros Hrow. rewrite (get_own _ _ _ Hrow). reflexivity. }
  assert (Hnone : row !! column = None -> column ∉ Object_prototype ->
            match get row column with
            | Some v0 => if truthy_value v0 then v0 else Str "Unknown"
            | None => Str "Unknown"
            end = Str "Unknown").
  { intros Hrow Hno. rewrite (get_missing _ _ Hrow Hno). reflexivity. }
  split; [exact Hcell|]. split; [exact Hempty|]. split; [exact Hnone|].
  split.
  { intros Hrow Hin. rewrite (get_inherited _ _ Hrow Hin). reflexivity. }
  split.
  { intros Hno. destruct (row !! column) as [v|] eqn:Hrow.
    - destruct (decide (v = "")) as [->|Hv].
      + exists "Unknown". split; [apply Hempty; reflexivity | discriminate].
      + exists v. split; [apply Hcell; [reflexivity | exact Hv] | exact Hv].
    - exists "Unknown". split; [apply Hnone; [reflexivity | exact Hno]
                               | discriminate]. }
  split; [reflexivity|]. split; [reflexivity|]. split; [reflexivity|].
  intros ->. reflexivity.
Qed.

(** X15. Loading a file sets the email column to the first header that
    contains "email" when case is ignored; without such a header the
    former column is kept. So in a fresh session, for a file with no such
    header whose rows hold only header columns, the column stays "email"
    and no certificate gets an address, emails switched on or not. *)
Theorem email_column_detection `{Engine} (p : Props) (results : ParseResult)
    (st : State) :
  let headers := default [] (fields results) in
  let st' := handleCsvUpload p results st in
  ((exists h, h ∈ headers /\ includes (toLowerCase h) "email" = true) ->
   includes (toLowerCase (emailColumn st')) "email" = true
   /\ exists before after,
        headers = before ++ emailColumn st' :: after
        /\ forall h, h ∈ before -> includes (toLowerCase h) "email" = false)
  /\ ((forall h, h ∈ headers -> includes (toLowerCase h) "email" = false) ->
      emailColumn st' = emailColumn st
      /\ (emailColumn st = "email" ->
          forall batchId row,
            (forall column, is_Some (row !! column) -> column ∈ headers) ->
            c_recipient_email (certificateRow batchId st' row) = None)).
Proof.
  intros headers st'. unfold st', handleCsvUpload. fold headers.
  cbn [emailColumn]. split.
  - intros (h & Hh & Hinc).
    destruct (find (fun h => includes (toLowerCase h) "email") headers)
      as [found|] eqn:Hfind.
    + destruct (find_first _ _ _ Hfind) as (Hf & before & after & Hsplit & Hb).
      assert (Hne : truthy_string found = true).
      { unfold truthy_string. apply bool_decide_eq_true_2. intros ->.
        rewrite toLowerCase_nil in Hf. discriminate Hf. }
      rewrite Hne. split; [exact Hf|]. exists before, after.
      split; [exact Hsplit | exact Hb].
    + exfalso. apply find_none with (x := h) in Hfind.
      * simpl in Hfind. congruence.
      * apply list_elem_of_In. exact Hh.
  - intros Hnone. rewrite (find_nothing _ _ Hnone).
    split; [reflexivity|].
    intros Hdefault batchId row Hcols.
    unfold certificateRow. cbn [c_recipient_email sendEmails emailColumn].
    destruct (sendEmails st); [|reflexivity].
    rewrite Hdefault.
    destruct (row !! "email") as [v|] eqn:Hrow.
    + exfalso. assert (Hin : "email" ∈ headers) by (apply Hcols; eauto).
      specialize (Hnone "email" Hin).
      rewrite (toLowerCase_isAscii "email") in Hnone by reflexivity.
      discriminate Hnone.
    + apply (get_missing _ _ Hrow).
      apply (bool_decide_unpack _). vm_compute. exact I.
Qed.

Lemma email_column_detection_witness :
  let p := mkProps None None in
  let row : gmap string string := {[ "Name" := "Ann"; "Contact" := "a@x.org" ]} in
  let st1 := handleCsvUpload p
               (mkParseResult [] (Some ["Name"; "Work E-Mail"; "Private Email"]))
               (initial None) in
  let st2 := handleCsvUpload p (mkParseResult [row] (Some ["Name"; "Contact"]))
               (initial None) in
  includes (toLowerCase (emailColumn st1)) "email" = true
  /\ emailColumn st2 = "email"
  /\ c_recipient_email (certificateRow "b1" st2 row) = None.
Proof.
  intros p row st1 st2.
  destruct (email_column_detection p
              (mkParseResult [] (Some ["Name"; "Work E-Mail"; "Private Email"]))
              (initial None)) as [Hfound _].
  destruct (email_column_detection p
              (mkParseResult [row] (Some ["Name"; "Contact"]))
              (initial None)) as [_ Hkept].
  split.
  - apply Hfound. exists "Private Email". split; [|reflexivity].
    apply (bool_decide_unpack _). vm_compute. exact I.
  - destruct Hkept as [Hsame Hnull].
    + intros h Hh. apply list_elem_of_In in Hh.
      destruct Hh as [<-|[<-|[]]]; reflexivity.
    + split; [exact Hsame|]. apply Hnull; [reflexivity|].
      intros column [v Hv]. unfold row in Hv.
      destruct (decide (column = "Name")) as [->|Hn];
        [apply (bool_decide_unpack _); vm_compute; exact I|].
      destruct (decide (column = "Contact")) as [->|Hc];
        [apply (bool_decide_unpack _); vm_compute; exact I|].
      rewrite lookup_insert_ne in Hv by congruence.
      rewrite lookup_singleton_ne in Hv by congruence.
      discriminate Hv.
Defined.

End Recipient.

(** ** From the mapping to the preview *)

Section MappingToPreview.

Import Generate.

(** X16. The automatic mapping depends only on which field keys the template
    has: the order of the fields, repeated keys and every other attribute
    of a field make no difference. *)
Theorem autoMap_depends_on_keys_only `{Engine} (fs1 fs2 : list Field.t)
    (headers : list string) :
  (forall k, k ∈ Field.field_key <$> fs1 <-> k ∈ Field.field_key <$> fs2) ->
  autoMap fs1 headers = autoMap fs2 headers.
Proof.
  intros Hkeys. apply map_eq. intros k. rewrite !autoMap_lookup.
  destruct (decide (k ∈ Field.field_key <$> fs1 /\ k <> "__proto__"))
    as [[H1 Hp]|H1],
    (decide (k ∈ Field.field_key <$> fs2 /\ k <> "__proto__"))
    as [[H2 Hp']|H2];
    try reflexivity.
  - exfalso. apply H2. split; [apply Hkeys, H1 | exact Hp].
  - exfalso. apply H1. split; [apply Hkeys, H2 | exact Hp'].
Qed.

Lemma autoMap_depends_on_keys_only_witness :
  let f1 := Field.mk "f1" "name" "Participant Name" (of_Z 400) (of_Z 300)
              (of_Z 32) "Arial" "#000000" "center" None in
  let f2 := Field.mk "f2" "date" "Date" (of_Z 100) (of_Z 500) (of_Z 24)
              "Georgia" "#333333" "left" None in
  let f3 := Field.mk "f3" "name" "Second Name" (of_Z 10) (of_Z 20) (of_Z 12)
              "Verdana" "#ffffff" "right" (Some (of_Z 300)) in
  autoMap [f1; f2] ["Date"; "NAME"] = autoMap [f2; f3; f1] ["Date"; "NAME"].
Proof.
  intros f1 f2 f3. apply autoMap_depends_on_keys_only.
  intros k. cbn [fmap list_fmap Field.field_key]. rewrite !elem_of_cons.
  split; intros H; tauto.
Defined.

(** X17. Choosing a column for a field in the mapping step shows in the
    preview at once: the field displays the cell of the current row under
    the chosen column when that cell is not empty, and its placeholder
    when the cell is empty, or is missing and the column does not bear the
    name of an inherited member (for a missing cell under such a name it
    displays the member); every other field displays what it displayed
    before. *)
Theorem manual_mapping_shows_in_preview `{Engine} (p : Props) (st : State)
    (s : CertificatePreview.State) (fieldKey v : string) :
  v <> "" ->
  let before := previewProps p st in
  let after := previewProps p (onValueChange fieldKey v st) in
  CertificatePreview.currentRow after s = CertificatePreview.currentRow before s
  /\ (forall cell, CertificatePreview.currentRow after s !! v = Some cell ->
        cell <> "" ->
        CertificatePreview.getFieldValue after s fieldKey = Str cell)
  /\ (CertificatePreview.currentRow after s !! v = Some "" ->
      CertificatePreview.getFieldValue after s fieldKey
      = Str (placeholder fieldKey))
  /\ (CertificatePreview.currentRow after s !! v = None ->
      v ∉ Object_prototype ->
      CertificatePreview.getFieldValue after s fieldKey
      = Str (placeholder fieldKey))
  /\ (CertificatePreview.currentRow after s !! v = None ->
      v ∈ Object_prototype ->
      CertificatePreview.getFieldValue after s fieldKey = Inherited v)
  /\ (forall other, other <> fieldKey ->
        CertificatePreview.getFieldValue after s other
        = CertificatePreview.getFieldValue before s other).
Proof.
  intros Hv before after.
  assert (Hrow : CertificatePreview.currentRow after s
                 = CertificatePreview.currentRow before s) by reflexivity.
  split; [exact Hrow|].
  unfold CertificatePreview.getFieldValue.
  assert (Hmap : CertificatePreview.fieldMapping after
                 = <[fieldKey := v]> (CertificatePreview.fieldMapping before))
    by reflexivity.
  rewrite Hmap, Hrow. clear Hmap Hrow.
  assert (Hget : get (<[fieldKey := v]> (CertificatePreview.fieldMapping before))
                   fieldKey = Some (Str v)).
  { apply get_own, lookup_insert_eq. }
  split; [|split; [|split; [|split]]].
  - intros cell Hcell Hne. rewrite Hget. cbn [truthy_value toPropertyKey].
    unfold truthy_string. rewrite bool_decide_eq_true_2 by exact Hv.
    rewrite (get_own _ _ _ Hcell). cbn [truthy_value]. unfold truthy_string.
    rewrite bool_decide_eq_true_2 by exact Hne. reflexivity.
  - intros Hcell. rewrite Hget. cbn [truthy_value toPropertyKey].
    unfold truthy_string. rewrite bool_decide_eq_true_2 by exact Hv.
    rewrite (get_own _ _ _ Hcell). reflexivity.
  - intros Hcell Hno. rewrite Hget. cbn [truthy_value toPropertyKey].
    unfold truthy_string. rewrite bool_decide_eq_true_2 by exact Hv.
    rewrite (get_missing _ _ Hcell Hno). reflexivity.
  - intros Hcell Hin. rewrite Hget. cbn [truthy_value toPropertyKey].
    unfold truthy_string. rewrite bool_decide_eq_true_2 by exact Hv.
    rewrite (get_inherited _ _ Hcell Hin). reflexivity.
  - intros other Hother. unfold get at 1 3.
    rewrite lookup_insert_ne by congruence. reflexivity.
Qed.

Lemma manual_mapping_shows_in_preview_witness :
  let row : gmap string string := {[ "Full name" := "Ann"; "When" := "" ]} in
  let st := handleCsvUpload (mkProps None None)
              (mkParseResult [row] (Some ["Full name"; "When"]))
              (initial None) in
  let after := previewProps (mkProps None None)
                 (onValueChange "name" "Full name" st) in
  CertificatePreview.getFieldValue after CertificatePreview.initial "name"
  = Str "Ann".
Proof.
  intros row st after.
  destruct (manual_mapping_shows_in_preview (mkProps None None) st
              CertificatePreview.initial "name" "Full name")
    as (_ & Hcell & _); [discriminate|].
  apply Hcell; [reflexivity | discriminate].
Defined.

(** X18. From the file to the first preview: for a field of the selected
    template whose key is not empty and does not bear the name of an
    inherited member, if a header equals the key up to case, the preview of
    the first record shows the cell under the first such header when it is
    not empty; if no header does, the field shows its placeholder. *)
Theorem upload_then_preview `{Engine} (p : Props) (results : ParseResult)
    (st : State) (f : Field.t) :
  f ∈ templateFields p st ->
  Field.field_key f <> "" ->
  Field.field_key f ∉ Object_prototype ->
  let headers := default [] (fields results) in
  let pp := previewProps p (handleCsvUpload p results st) in
  CertificatePreview.templateFields pp = templateFields p st
  /\ (forall before h after row cell,
        headers = before ++ h :: after ->
        toLowerCase h = toLowerCase (Field.field_key f) ->
        (forall h', h' ∈ before ->
           toLowerCase h' <> toLowerCase (Field.field_key f)) ->
        data results !! 0%nat = Some row ->
        row !! h = Some cell -> cell <> "" ->
        Konva.text (CertificatePreview.renderField pp
                      CertificatePreview.initial f) = Str cell)
  /\ ((forall h, h ∈ headers ->
         toLowerCase h <> toLowerCase (Field.field_key f)) ->
      Konva.text (CertificatePreview.renderField pp
                    CertificatePreview.initial f)
      = Str (placeholder (Field.field_key f))).
Proof.
  intros Hf Hkey Hproto headers pp.
  assert (Hin : Field.field_key f ∈ Field.field_key <$> templateFields p st).
  { apply list_elem_of_fmap. exists f. split; [reflexivity | exact Hf]. }
  assert (Hp : Field.field_key f <> "__proto__").
  { intros Heq. apply Hproto. rewrite Heq.
    apply (bool_decide_unpack _). vm_compute. exact I. }
  assert (Hmap : CertificatePreview.fieldMapping pp !! Field.field_key f
                 = Spec.firstMatch headers (Field.field_key f)).
  { unfold pp, previewProps, handleCsvUpload.
    cbn [CertificatePreview.fieldMapping fieldMapping]. fold headers.
    rewrite autoMap_lookup, decide_True by (split; assumption).
    destruct (Spec.firstMatch headers (Field.field_key f)) as [h|] eqn:Hfind;
      [|reflexivity].
    unfold truthy_string. rewrite bool_decide_eq_true_2; [reflexivity|].
    apply (firstMatch_nonempty headers _ h Hkey Hfind). }
  split; [reflexivity|].
  cbn [CertificatePreview.renderField Konva.text].
  unfold CertificatePreview.getFieldValue.
  split.
  - intros before h after row cell Hsplit Heq Hb Hrow Hcell Hne.
    assert (Hfind : Spec.firstMatch headers (Field.field_key f) = Some h).
    { apply firstMatch_Some. exists before, after. auto. }
    rewrite Hfind in Hmap. rewrite (get_own _ _ _ Hmap).
    cbn [truthy_value toPropertyKey]. unfold truthy_string.
    rewrite bool_decide_eq_true_2
      by apply (firstMatch_nonempty headers _ h Hkey Hfind).
    assert (Hcur : CertificatePreview.currentRow pp CertificatePreview.initial
                   = row).
    { unfold CertificatePreview.currentRow, CertificatePreview.initial.
      cbn [CertificatePreview.previewIndex].
      rewrite decide_True by lia.
      change (CertificatePreview.csvData pp) with (data results).
      change (Z.to_nat 0) with 0%nat. rewrite Hrow. reflexivity. }
    rewrite Hcur, (get_own _ _ _ Hcell). cbn [truthy_value].
    unfold truthy_string. rewrite bool_decide_eq_true_2 by exact Hne.
    reflexivity.
  - intros Hnone. apply firstMatch_None in Hnone. rewrite Hnone in Hmap.
    rewrite (get_missing _ _ Hmap Hproto). reflexivity.
Qed.

Lemma upload_then_preview_witness :
  let f := Field.mk "f1" "name" "Participant Name" (of_Z 400) (of_Z 300)
             (of_Z 32) "Arial" "#000000" "center" None in
  let t := mkTemplateRecord
             (CertificatePreview.mkTemplate "t1" "T" "url" (of_Z 800) (of_Z 600))
             (Some [f]) in
  let p := mkProps None (Some [t]) in
  let row : gmap string string := {[ "NAME" := "Ann"; "email" := "a@x.org" ]} in
  let results := mkParseResult [row] (Some ["NAME"; "email"]) in
  let pp := previewProps p (handleCsvUpload p results (initial (Some "t1"))) in
  Konva.text (CertificatePreview.renderField pp CertificatePreview.initial f)
  = Str "Ann".
Proof.
  intros f t p row results pp.
  destruct (upload_then_preview p results (initial (Some "t1")) f)
    as (_ & Hshown & _).
  - apply (list_elem_of_here f []).
  - discriminate.
  - apply (bool_decide_unpack _). vm_compute. exact I.
  - apply (Hshown [] "NAME" ["email"] row "Ann");
      [reflexivity | reflexivity | | reflexivity | reflexivity | discriminate].
    intros h' Hh'. exfalso. revert Hh'. apply not_elem_of_nil.
Defined.

End MappingToPreview.

(** ** Progress and totals *)

Section Progress.

Import Supabase.

Lemma Qc_of_Z_pos z : 0 < Spec.Qc_of_Z z <-> (0 < z)%Z.
Proof.
  unfold Spec.Qc_of_Z, Qclt. cbn [this Q2Qc]. rewrite !Qred_correct.
  unfold Qlt. simpl. lia.
Qed.

Lemma Qfloor_unique (x : Q) (z : Z) :
  (inject_Z z <= x)%Q -> (x < inject_Z (z + 1))%Q -> Qfloor x = z.
Proof.
  intros Hle Hlt.
  assert (H1 : (z <= Qfloor x)%Z).
  { rewrite <- (Qfloor_Z z). apply Qfloor_resp_le. exact Hle. }
  assert (H2 : (Qfloor x < z + 1)%Z).
  { rewrite Zlt_Qlt. eapply Qle_lt_trans; [apply Qfloor_le | exact Hlt]. }
  lia.
Qed.

(** Rounding a ratio of counts to a percentage, in integers. *)
Lemma round_percent (g t : nat) :
  (0 < t)%nat ->
  Math_round (mul (div (of_nat g) (of_nat t)) (of_Z 100))
  = of_Z ((200 * Z.of_nat g + Z.of_nat t) / (2 * Z.of_nat t)).
Proof.
  intros Ht. unfold of_nat, of_Z.
  assert (Hpos : 0 < Q2Qc (inject_Z (Z.of_nat t)))
    by (apply (Qc_of_Z_pos (Z.of_nat t)); lia).
  rewrite div_Fin_pos by exact Hpos. cbn [mul Math_round]. unfold of_Z.
  do 3 f_equal. rewrite Zdiv_Qdiv. apply Qfloor_comp.
  unfold Qcdiv, Qcinv, Qcmult, Qcplus. cbn [this Q2Qc].
  repeat rewrite Qred_correct.
  rewrite !inject_Z_plus, !inject_Z_mult.
  assert (Hne : ~ inject_Z (Z.of_nat t) == 0)
    by (unfold Qeq; simpl; lia).
  field; repeat split; try exact Hne; discriminate.
Qed.

Lemma percent_bounds (g t : nat) :
  (0 < t)%nat -> (g <= t)%nat ->
  (0 <= (200 * Z.of_nat g + Z.of_nat t) / (2 * Z.of_nat t) <= 100)%Z.
Proof.
  intros Ht Hg. split.
  - apply Z.div_pos; lia.
  - enough ((200 * Z.of_nat g + Z.of_nat t) / (2 * Z.of_nat t) < 101)%Z by lia.
    apply Z.div_lt_upper_bound; lia.
Qed.

Lemma percent_full (t : nat) :
  (0 < t)%nat ->
  ((200 * Z.of_nat t + Z.of_nat t) / (2 * Z.of_nat t) = 100)%Z.
Proof.
  intros Ht. symmetry. apply (Z.div_unique _ _ 100 (Z.of_nat t)); lia.
Qed.

Lemma percent_mono (g g' t : nat) :
  (0 < t)%nat -> (g <= g')%nat ->
  ((200 * Z.of_nat g + Z.of_nat t) / (2 * Z.of_nat t)
   <= (200 * Z.of_nat g' + Z.of_nat t) / (2 * Z.of_nat t))%Z.
Proof. intros Ht Hg. apply Z.div_le_mono; lia. Qed.

(** X19. The progress of a batch on the history page: 0 for a batch without
    rows, with no division; otherwise a whole percentage between 0 and 100
    as long as no more is generated than there are rows, 100 when all are
    generated, 0 when none is, and never smaller for more generated rows. *)
Theorem history_progress_is_a_percentage (b : BatchRow) :
  (b_total_count b = 0%nat -> History.progress b = of_Z 0)
  /\ (b_generated_count b = 0%nat -> History.progress b = of_Z 0)
  /\ ((0 < b_total_count b)%nat ->
      b_generated_count b = b_total_count b ->
      History.progress b = of_Z 100)
  /\ ((b_generated_count b <= b_total_count b)%nat ->
      exists k, History.progress b = of_Z k /\ (0 <= k <= 100)%Z)
  /\ (forall b', b_total_count b' = b_total_count b ->
        (b_generated_count b <= b_generated_count b')%nat ->
        exists k k', History.progress b = of_Z k
                     /\ History.progress b' = of_Z k' /\ (k <= k')%Z).
Proof.
  unfold History.progress.
  split; [intros ->; reflexivity|].
  split.
  { intros Hg. destruct (b_total_count b) as [|t]; [reflexivity|].
    cbn [Nat.ltb Nat.leb]. rewrite round_percent by lia. rewrite Hg.
    f_equal. apply Z.div_small. lia. }
  split.
  { intros Ht ->. rewrite (proj2 (Nat.ltb_lt _ _) Ht).
    rewrite round_percent by exact Ht. f_equal. apply percent_full, Ht. }
  split.
  { intros Hg. destruct (b_total_count b) as [|t] eqn:Hb.
    - exists 0%Z. split; [reflexivity | lia].
    - cbn [Nat.ltb Nat.leb]. rewrite round_percent by lia.
      eexists; split; [reflexivity|]. apply percent_bounds; lia. }
  intros b' -> Hg. destruct (b_total_count b) as [|t].
  - exists 0%Z, 0%Z. split; [reflexivity|]. split; [reflexivity | lia].
  - cbn [Nat.ltb Nat.leb]. rewrite !round_percent by lia.
    eexists _, _. split; [reflexivity|]. split; [reflexivity|].
    apply percent_mono; lia.
Qed.

(** X20. While the rows are written, the progress shown after each row is a
    whole percentage between 0 and 100 that never goes down from one row
    to the next and is 100 after the last row. *)
Theorem generation_progress_reaches_100 (st : Generate.State) (i : nat) :
  (i < length (Generate.csvData st))%nat ->
  exists k,
    Generate.generationProgress i st = of_Z k
    /\ (0 <= k <= 100)%Z
    /\ (S i = length (Generate.csvData st) -> k = 100%Z)
    /\ forall j, (i <= j < length (Generate.csvData st))%nat ->
         exists k', Generate.generationProgress j st = of_Z k' /\ (k <= k')%Z.
Proof.
  intros Hi. unfold Generate.generationProgress.
  rewrite round_percent by lia.
  eexists; split; [reflexivity|].
  split; [apply percent_bounds; lia|].
  split.
  - intros Hlast. replace (i + 1)%nat with (length (Generate.csvData st)) by lia.
    apply percent_full. lia.
  - intros j Hj. rewrite round_percent by lia.
    eexists; split; [reflexivity|]. apply percent_mono; lia.
Qed.

Lemma generation_progress_reaches_100_witness :
  let rows : list (gmap string string) :=
    [{[ "name" := "Ann" ]}; {[ "name" := "Bob" ]}; {[ "name" := "Cy" ]}] in
  let st := Generate.handleCsvUpload (Generate.mkProps None None)
              (Generate.mkParseResult rows (Some ["name"]))
              (Generate.initial None) in
  exists k, Generate.generationProgress 2 st = of_Z k /\ k = 100%Z.
Proof.
  intros rows st.
  destruct (generation_progress_reaches_100 st 2) as (k & Hk & _ & Hlast & _);
    [simpl; lia|].
  exists k. split; [exact Hk | apply Hlast; reflexivity].
Defined.

End Progress.

(** ** The dashboard after a generation *)

Section DashboardTotals.

Import Supabase Generate.

Lemma fold_left_add {A : Type} (f : A -> nat) (l : list A) (a : nat) :
  fold_left (fun acc b => (acc + f b)%nat) l a
  = (a + fold_left (fun acc b => (acc + f b)%nat) l 0%nat)%nat.
Proof.
  revert a. induction l as [|x l IH]; intros a; cbn [fold_left].
  - lia.
  - rewrite (IH (a + f x)%nat), (IH (0 + f x)%nat). lia.
Qed.

Lemma fold_left_add_snoc {A : Type} (f : A -> nat) (l : list A) (x : A) :
  fold_left (fun acc b => (acc + f b)%nat) (l ++ [x]) 0%nat
  = (fold_left (fun acc b => (acc + f b)%nat) l 0%nat + f x)%nat.
Proof. rewrite fold_left_app. reflexivity. Qed.

(** The rows of [batch_jobs] after a generation whose batch insert is
    accepted. *)
Lemma generate_batch_jobs (today : string) (p : Props) (st : State)
    (db : Db) (t : TemplateRecord) (u : User) :
  selectedTemplate p st = Some t ->
  user p = Some u ->
  csvData st <> [] ->
  faults db (requests db) = None ->
  let N := length (csvData st) in
  let row status generated :=
    mkBatchRow (uuids db (drawn db)) (user_id u) (selectedTemplateId st)
      (CertificatePreview.name (template t) +:+ " - " +:+ today)
      status N generated 0 0 (csvData st) in
  batch_jobs (handleGenerate today p st db).2
  = match faults db (S (requests db) + N) with
    | None =>
        ((fun r => if decide (b_id r = uuids db (drawn db))
                   then mkBatchRow (b_id r) (b_user_id r) (b_template_id r)
                          (b_name r) "completed" (b_total_count r) N
                          (b_sent_count r) (b_failed_count r) (b_csv_data r)
                   else r) <$> batch_jobs db)
        ++ [row "completed" N]
    | Some _ => batch_jobs db ++ [row "processing" 0%nat]
    end.
Proof.
  intros Ht Hu Hrows Hok N row.
  unfold handleGenerate. rewrite Ht, Hu.
  rewrite decide_False by (intros Hlen; apply Hrows, nil_length_inv, Hlen).
  unfold try_catch.
  erewrite bind_Return;
    [|unfold insert_batch; apply request_accepted, Hok].
  cbn [fst snd gen_random_uuid].
  erewrite bind_Return; [|apply insertCertificates_any].
  cbn [b_id]. fold N.
  destruct db as [fl ids rq dr tpl flds batches certs].
  cbn [faults requests uuids drawn set_requests set_drawn set_batch_jobs
       set_certificates certificates batch_jobs] in *.
  unfold mbind, Async_bind, bind, update_batch, request, mret, Async_ret, ret.
  cbn [faults requests set_requests set_certificates].
  replace (S rq + N)%nat with (S (rq + N)) by lia.
  destruct (fl (S (rq + N))) as [e|] eqn:Hupd; cbn; rewrite ?Hupd; cbn.
  - reflexivity.
  - rewrite fmap_app. cbn. rewrite decide_True by reflexivity. reflexivity.
Qed.

(** Such a generation always ends at step 4. *)
Lemma generate_returns_step_4 (today : string) (p : Props) (st : State)
    (db : Db) (t : TemplateRecord) (u : User) :
  selectedTemplate p st = Some t ->
  user p = Some u ->
  csvData st <> [] ->
  faults db (requests db) = None ->
  (handleGenerate today p st db).1 = Return (setStep 4 st).
Proof.
  intros Ht Hu Hrows Hok.
  unfold handleGenerate. rewrite Ht, Hu.
  rewrite decide_False by (intros Hlen; apply Hrows, nil_length_inv, Hlen).
  unfold try_catch.
  erewrite bind_Return;
    [|unfold insert_batch; apply request_accepted, Hok].
  cbn [fst snd gen_random_uuid].
  erewrite bind_Return; [|apply insertCertificates_any].
  unfold mbind, Async_bind, bind, update_batch, request, mret, Async_ret, ret.
  match goal with
  | |- context [faults ?d (requests ?d)] => destruct (faults d (requests d))
  end; reflexivity.
Qed.

Lemma update_other_rows (id : uuid) (status : string) (n : nat)
    (l : list BatchRow) :
  (forall b, b ∈ l -> b_id b <> id) ->
  (fun r => if decide (b_id r = id)
            then mkBatchRow (b_id r) (b_user_id r) (b_template_id r)
                   (b_name r) status (b_total_count r) n
                   (b_sent_count r) (b_failed_count r) (b_csv_data r)
            else r) <$> l = l.
Proof.
  intros Hfresh. induction l as [|b l IH]; [reflexivity|].
  cbn. rewrite decide_False by (apply Hfresh, list_elem_of_here).
  f_equal. apply IH. intros b' Hb'. apply Hfresh, list_elem_of_further, Hb'.
Qed.

(** X21. What a generation does to the dashboard. When the batch insert is
    accepted and the identifier drawn for the batch is new, the user's
    "generated" total rises by the number of rows N if the final update is
    accepted, whether or not the certificate rows were written, and is
    unchanged if that update is rejected; the "sent" and "failed" totals are
    never changed, and the statistics of every other user stay as they
    were. *)
Theorem dashboard_counts_a_generation (today : string) (p : Props)
    (st : State) (db : Db) (t : TemplateRecord) (u : User)
    (count : option nat) :
  selectedTemplate p st = Some t ->
  user p = Some u ->
  csvData st <> [] ->
  faults db (requests db) = None ->
  (forall b, b ∈ batch_jobs db -> b_id b <> uuids db (drawn db)) ->
  let N := length (csvData st) in
  let out := handleGenerate today p st db in
  let statsOf v d := Dashboard.stats count (Some (visible_batch_jobs v d)) in
  (faults db (S (requests db) + N) = None ->
   Dashboard.totalGenerated (statsOf (user_id u) out.2)
   = (Dashboard.totalGenerated (statsOf (user_id u) db) + N)%nat)
  /\ (is_Some (faults db (S (requests db) + N)) ->
      Dashboard.totalGenerated (statsOf (user_id u) out.2)
      = Dashboard.totalGenerated (statsOf (user_id u) db))
  /\ Dashboard.totalSent (statsOf (user_id u) out.2)
     = Dashboard.totalSent (statsOf (user_id u) db)
  /\ Dashboard.totalFailed (statsOf (user_id u) out.2)
     = Dashboard.totalFailed (statsOf (user_id u) db)
  /\ forall v, v <> user_id u -> statsOf v out.2 = statsOf v db.
Proof.
  intros Ht Hu Hrows Hok Hfresh N out statsOf.
  pose proof (generate_batch_jobs today p st db t u Ht Hu Hrows Hok) as Hjobs.
  cbn zeta in Hjobs. fold N in Hjobs. fold out in Hjobs.
  rewrite update_other_rows in Hjobs by exact Hfresh.
  unfold statsOf, visible_batch_jobs, Dashboard.stats.
  cbn [default from_option id Dashboard.totalGenerated Dashboard.totalSent
       Dashboard.totalFailed].
  rewrite Hjobs.
  destruct (faults db (S (requests db) + N)) as [e|] eqn:Hupd.
  - rewrite filter_app, filter_cons_True by reflexivity.
    rewrite filter_nil, !fold_left_add_snoc. cbn.
    split; [discriminate|]. split; [intros _; lia|].
    split; [lia|]. split; [lia|].
    intros v Hv. rewrite filter_app, filter_cons_False, filter_nil, app_nil_r
      by (cbn; intros Heq; apply Hv; symmetry; exact Heq).
    reflexivity.
  - rewrite filter_app, filter_cons_True by reflexivity.
    rewrite filter_nil, !fold_left_add_snoc. cbn.
    split; [intros _; lia|].
    split; [intros [x Hx]; discriminate|].
    split; [lia|]. split; [lia|].
    intros v Hv. rewrite filter_app, filter_cons_False, filter_nil, app_nil_r
      by (cbn; intros Heq; apply Hv; symmetry; exact Heq).
    reflexivity.
Qed.

(** X22. The batch of a generation on the history page. The batch is the last
    row of [batch_jobs]. If the final update is accepted it is shown without
    a progress bar and its progress is 100; if that update is rejected the
    page keeps drawing its progress bar at 0, although the generation page
    has moved to its completion step. *)
Theorem history_shows_generated_batch (today : string) (p : Props)
    (st : State) (db : Db) (t : TemplateRecord) (u : User) :
  selectedTemplate p st = Some t ->
  user p = Some u ->
  csvData st <> [] ->
  faults db (requests db) = None ->
  let N := length (csvData st) in
  let out := handleGenerate today p st db in
  exists b,
    last (batch_jobs out.2) = Some b
    /\ b_id b = uuids db (drawn db)
    /\ (faults db (S (requests db) + N) = None ->
        History.showsProgress b = false /\ History.progress b = of_Z 100)
    /\ (is_Some (faults db (S (requests db) + N)) ->
        out.1 = Return (setStep 4 st)
        /\ History.showsProgress b = true /\ History.progress b = of_Z 0).
Proof.
  intros Ht Hu Hrows Hok N out.
  pose proof (generate_batch_jobs today p st db t u Ht Hu Hrows Hok) as Hjobs.
  cbn zeta in Hjobs. fold N in Hjobs. fold out in Hjobs.
  pose proof (generate_returns_step_4 today p st db t u Ht Hu Hrows Hok)
    as Hret.
  fold out in Hret.
  assert (HN : (0 < N)%nat).
  { unfold N. destruct (csvData st); [congruence | cbn; lia]. }
  rewrite Hjobs.
  destruct (faults db (S (requests db) + N)) as [e|] eqn:Hupd.
  - eexists. split; [apply last_snoc|]. split; [reflexivity|].
    split; [discriminate|]. intros _. split; [exact Hret|].
    split; [reflexivity|].
    unfold History.progress. cbn [b_total_count b_generated_count].
    rewrite (proj2 (Nat.ltb_lt _ _) HN), round_percent by exact HN.
    f_equal. apply Z.div_small. lia.
  - eexists. split; [apply last_snoc|]. split; [reflexivity|].
    split; [|intros [x Hx]; discriminate]. intros _.
    split; [reflexivity|].
    unfold History.progress. cbn [b_total_count b_generated_count].
    rewrite (proj2 (Nat.ltb_lt _ _) HN), round_percent by exact HN.
    f_equal. apply percent_full, HN.
Qed.

Lemma history_shows_generated_batch_witness :
  let t := mkTemplateRecord
             (CertificatePreview.mkTemplate "t1" "Award" "url"
                (of_Z 800) (of_Z 600)) (Some []) in
  let p := mkProps (Some (mkUser "u1")) (Some [t]) in
  let rows : list (gmap string string) :=
    [{[ "name" := "Ann" ]}; {[ "name" := "Bob" ]}] in
  let st := handleCsvUpload p (mkParseResult rows (Some ["name"]))
              (initial (Some "t1")) in
  let db := mkDb (fun k => if decide (k = 3%nat) then Some "timeout" else None)
              (fun _ => "b1") 0 0 [] [] [] [] in
  let out := handleGenerate "1/1/2026" p st db in
  exists b, last (batch_jobs out.2) = Some b
            /\ length (certificates out.2) = 2%nat
            /\ History.showsProgress b = true
            /\ History.progress b = of_Z 0.
Proof.
  intros t p rows st db out.
  destruct (history_shows_generated_batch "1/1/2026" p st db t (mkUser "u1"))
    as (b & Hlast & _ & _ & Hstuck).
  - reflexivity.
  - reflexivity.
  - discriminate.
  - reflexivity.
  - exists b. split; [exact Hlast|]. split; [reflexivity|].
    apply Hstuck. eexists. reflexivity.
Defined.

Lemma dashboard_counts_a_generation_witness :
  let t := mkTemplateRecord
             (CertificatePreview.mkTemplate "t1" "Award" "url"
                (of_Z 800) (of_Z 600)) (Some []) in
  let p := mkProps (Some (mkUser "u1")) (Some [t]) in
  let rows : list (gmap string string) :=
    [{[ "name" := "Ann" ]}; {[ "name" := "Bob" ]}; {[ "name" := "Cy" ]}] in
  let st := handleCsvUpload p (mkParseResult rows (Some ["name"]))
              (initial (Some "t1")) in
  let old := mkBatchRow "b0" "u1" "t1" "Award - 1/1/2025" "completed"
               2 2 1 0 [] in
  let db := mkDb (fun _ => None) (fun _ => "b1") 0 0 [] [] [old] [] in
  let out := handleGenerate "1/1/2026" p st db in
  Dashboard.totalGenerated
    (Dashboard.stats None (Some (visible_batch_jobs "u1" out.2))) = 5%nat.
Proof.
  intros t p rows st old db out.
  destruct (dashboard_counts_a_generation "1/1/2026" p st db t (mkUser "u1")
              None) as (Hgen & _).
  - reflexivity.
  - reflexivity.
  - discriminate.
  - reflexivity.
  - intros b Hb. apply list_elem_of_singleton in Hb. subst b. discriminate.
  - cbn [user_id] in Hgen. unfold out. rewrite Hgen by reflexivity.
    reflexivity.
Defined.

End DashboardTotals.

(** ** The steps of the generation page *)

Section GenerateSession.

Import Supabase Generate.

(** [handleGenerate] always returns: with the state as it was, or at step
    4, and then a template was selected and there were rows. *)
Lemma handleGenerate_result (today : string) (p : Props) (st : State)
    (db : Db) :
  (handleGenerate today p st db).1 = Return st
  \/ ((handleGenerate today p st db).1 = Return (setStep 4 st)
      /\ csvData st <> [] /\ is_Some (selectedTemplate p st)).
Proof.
  unfold handleGenerate.
  destruct (selectedTemplate p st) as [t|] eqn:Ht; [|left; reflexivity].
  destruct (decide (length (csvData st) = 0%nat)) as [Hlen|Hlen];
    [left; reflexivity|].
  unfold try_catch.
  destruct (user p) as [u|]; [|left; reflexivity].
  destruct (faults db (requests db)) as [e|] eqn:Hf.
  - erewrite bind_Return;
      [|unfold insert_batch; apply request_rejected; exact Hf].
    left. reflexivity.
  - erewrite bind_Return;
      [|unfold insert_batch; apply request_accepted, Hf].
    cbn [fst snd gen_random_uuid].
    erewrite bind_Return; [|apply insertCertificates_any].
    right. split.
    + unfold mbind, Async_bind, bind, update_batch, request, mret, Async_ret,
        ret.
      match goal with
      | |- context [faults ?d (requests ?d)] =>
          destruct (faults d (requests d))
      end; reflexivity.
    + split; [|eexists; reflexivity].
      intros Hnil. apply Hlen. rewrite Hnil. reflexivity.
Qed.

Lemma handle_keeps_session_invariant `{Engine} (p : Props) (st : State)
    (e : Event) :
  ((1 <= step st <= 4)%nat
   /\ ((2 <= step st)%nat -> selectedTemplateId st <> "")
   /\ (forall k v, fieldMapping st !! k = Some v -> v ∈ csvHeaders st)
   /\ (step st = 4%nat ->
       csvData st <> [] /\ is_Some (selectedTemplate p st))) ->
  possible st e ->
  let st' := handle p st e in
  ((1 <= step st' <= 4)%nat
   /\ ((2 <= step st')%nat -> selectedTemplateId st' <> "")
   /\ (forall k v, fieldMapping st' !! k = Some v -> v ∈ csvHeaders st')
   /\ (step st' = 4%nat ->
       csvData st' <> [] /\ is_Some (selectedTemplate p st'))).
Proof.
  intros (Hstep & Hid & Hmap & Hdone) Hposs st'. unfold st'. clear st'.
  destruct e as [id| | |results| |fieldKey v|c|v|today db|];
    cbn [handle possible] in *.
  - (* SelectTemplate *)
    unfold setSelectedTemplateId. cbn.
    split; [lia|]. split; [lia|]. split; [exact Hmap|]. lia.
  - (* Continue *)
    destruct Hposs as [Hs Hne].
    unfold setStep. cbn.
    split; [lia|]. split; [intros _; exact Hne|].
    split; [exact Hmap|]. lia.
  - (* BackToTemplate *)
    unfold setStep. cbn.
    split; [lia|]. split; [lia|]. split; [exact Hmap|]. lia.
  - (* Upload *)
    unfold handleCsvUpload. cbn.
    split; [lia|]. split; [intros _; apply Hid; lia|].
    split; [|lia].
    intros k v Hkv. rewrite autoMap_lookup in Hkv.
    case_decide; [|discriminate].
    destruct (Spec.firstMatch (default [] (fields results)) k) as [h|] eqn:Hh;
      [|discriminate].
    destruct (truthy_string h); [|discriminate].
    injection Hkv as <-. apply firstMatch_elem in Hh as [Hin _]. exact Hin.
  - (* BackToUpload *)
    unfold setStep. cbn.
    split; [lia|]. split; [intros _; apply Hid; lia|].
    split; [exact Hmap|]. lia.
  - (* MapField *)
    destruct Hposs as [Hs Hv].
    unfold onValueChange. cbn.
    split; [lia|]. split; [exact Hid|]. split; [|lia].
    intros k w Hkw. destruct (decide (fieldKey = k)) as [->|Hne].
    + rewrite lookup_insert_eq in Hkw. injection Hkw as <-. exact Hv.
    + rewrite lookup_insert_ne in Hkw by exact Hne. eapply Hmap, Hkw.
  - (* CheckSendEmails *)
    unfold setSendEmails. cbn.
    split; [lia|]. split; [exact Hid|]. split; [exact Hmap|]. lia.
  - (* SelectEmailColumn *)
    unfold setEmailColumn. cbn.
    split; [lia|]. split; [exact Hid|]. split; [exact Hmap|]. lia.
  - (* Generate *)
    unfold afterGenerate.
    destruct (handleGenerate_result today p st db) as [-> | (-> & Hrows & Ht)].
    + split; [lia|]. split; [exact Hid|]. split; [exact Hmap|]. lia.
    + unfold setStep. cbn.
      split; [lia|]. split; [intros _; apply Hid; lia|].
      split; [exact Hmap|]. intros _. split; [exact Hrows | exact Ht].
  - (* GenerateMore *)
    unfold generateMore. cbn.
    split; [lia|]. split; [lia|].
    split; [intros k v Hkv; rewrite lookup_empty in Hkv; discriminate|].
    discriminate.
Qed.

Lemma run_keeps_session_invariant `{Engine} (p : Props)
    (events : list Event) :
  forall st,
  ((1 <= step st <= 4)%nat
   /\ ((2 <= step st)%nat -> selectedTemplateId st <> "")
   /\ (forall k v, fieldMapping st !! k = Some v -> v ∈ csvHeaders st)
   /\ (step st = 4%nat ->
       csvData st <> [] /\ is_Some (selectedTemplate p st))) ->
  session p st events ->
  let st' := run p st events in
  ((1 <= step st' <= 4)%nat
   /\ ((2 <= step st')%nat -> selectedTemplateId st' <> "")
   /\ (forall k v, fieldMapping st' !! k = Some v -> v ∈ csvHeaders st')
   /\ (step st' = 4%nat ->
       csvData st' <> [] /\ is_Some (selectedTemplate p st'))).
Proof.
  induction events as [|e events IH]; intros st Hinv Hsess.
  - exact Hinv.
  - destruct Hsess as [Hposs Hrest]. cbn [run fold_left].
    apply IH; [apply handle_keeps_session_invariant; assumption | exact Hrest].
Qed.

(** X23. Through every sequence of actions the page offers, starting from
    the page as it opens and with each action (a generation included)
    running to its end before the next: the step stays between 1 and 4;
    from step 2 on a template id is chosen; every column a field is mapped
    to is a header of the loaded file; and the completion step is only
    shown after a generation with a selected template and at least one
    row. *)
Theorem generate_page_steps `{Engine} (p : Props)
    (templateParam : option string) (events : list Event) :
  session p (initial templateParam) events ->
  let st := run p (initial templateParam) events in
  (1 <= step st <= 4)%nat
  /\ ((2 <= step st)%nat -> selectedTemplateId st <> "")
  /\ (forall k v, fieldMapping st !! k = Some v -> v ∈ csvHeaders st)
  /\ (step st = 4%nat -> csvData st <> [] /\ is_Some (selectedTemplate p st)).
Proof.
  intros Hsess. apply (run_keeps_session_invariant p events); [|exact Hsess].
  unfold initial. cbn.
  split; [lia|]. split; [lia|].
  split; [intros k v Hkv; rewrite lookup_empty in Hkv; discriminate|].
  discriminate.
Qed.

Lemma generate_page_steps_witness :
  let f := Field.mk "f1" "name" "Name" (of_Z 10) (of_Z 20) (of_Z 24)
             "Arial" "#000000" "left" None in
  let t := mkTemplateRecord
             (CertificatePreview.mkTemplate "t1" "Award" "url"
                (of_Z 800) (of_Z 600)) (Some [f]) in
  let p := mkProps (Some (mkUser "u1")) (Some [t]) in
  let rows : list (gmap string string) :=
    [{[ "Name" := "Ann"; "Mail" := "a@x.org" ]}] in
  let db := mkDb (fun _ => None) (fun _ => "b1") 0 0 [] [] [] [] in
  let events :=
    [SelectTemplate "t1"; Continue;
     Upload (mkParseResult rows (Some ["Name"; "Mail"]));
     MapField "name" "Mail"; Generate "1/1/2026" db] in
  let st := run p (initial None) events in
  step st = 4%nat /\ fieldMapping st !! "name" = Some "Mail"
  /\ "Mail" ∈ csvHeaders st /\ csvData st <> [].
Proof.
  intros f t p rows db events st.
  assert (Hsess : session p (initial None) events).
  { unfold events. cbn [session possible].
    repeat split; try reflexivity;
      apply (bool_decide_unpack _); vm_compute; exact I. }
  destruct (generate_page_steps p None events Hsess) as (_ & _ & Hmap & Hdone).
  assert (Hstep : step st = 4%nat) by (vm_compute; reflexivity).
  assert (Hname : fieldMapping st !! "name" = Some "Mail")
    by (apply (bool_decide_unpack _); vm_compute; exact I).
  split; [exact Hstep|]. split; [exact Hname|].
  split; [exact (Hmap "name" "Mail" Hname) | exact (proj1 (Hdone Hstep))].
Defined.

End GenerateSession.

(** ** The extension of an uploaded image *)

Section ImageUpload.

Import TemplateEditor.

Lemma append_assoc (a b c : string) : a +:+ (b +:+ c) = (a +:+ b) +:+ c.
Proof.
  induction a as [|x a IH]; [reflexivity|].
  change (String x (a +:+ (b +:+ c)) = String x ((a +:+ b) +:+ c)).
  rewrite IH. reflexivity.
Qed.

(** The shape of [s.split(sep)]: a first piece and the rest; no piece holds
    the separator; with no further piece the first is the whole string,
    otherwise the string is the first piece, then some text, then the
    separator and the last piece. *)
Lemma splitOn_shape (sep : ascii) (s : string) :
  exists first rest,
    splitOn sep s = first :: rest
    /\ ~ In sep (String.list_ascii_of_string first)
    /\ (rest = [] -> first = s)
    /\ (rest <> [] ->
        exists ext stem,
          last rest = Some ext
          /\ ~ In sep (String.list_ascii_of_string ext)
          /\ s = first +:+ stem +:+ String sep ext).
Proof.
  induction s as [|c r (first & rest & Hsplit & Hfirst & Hone & Hmore)].
  - exists EmptyString, []. cbn. split; [reflexivity|].
    split; [tauto|]. split; [reflexivity|]. intros Hne. congruence.
  - cbn [splitOn]. destruct (decide (c = sep)) as [->|Hc].
    + exists EmptyString, (first :: rest). rewrite Hsplit.
      split; [reflexivity|]. split; [cbn; tauto|].
      split; [discriminate|]. intros _.
      destruct rest as [|second rest].
      * exists first, EmptyString. split; [reflexivity|].
        split; [exact Hfirst|]. rewrite (Hone eq_refl). reflexivity.
      * destruct Hmore as (ext & stem & Hlast & Hext & Hs); [discriminate|].
        exists ext, (String sep (first +:+ stem)).
        split; [exact Hlast|]. split; [exact Hext|].
        rewrite Hs. cbn. rewrite append_assoc. reflexivity.
    + rewrite Hsplit. exists (String c first), rest.
      split; [reflexivity|].
      split; [cbn; intros [Heq | Hin]; [apply Hc, Heq | apply Hfirst, Hin]|].
      split; [intros Hnil; rewrite (Hone Hnil); reflexivity|].
      intros Hne. destruct (Hmore Hne) as (ext & stem & Hlast & Hext & Hs).
      exists ext, stem. split; [exact Hlast|]. split; [exact Hext|].
      rewrite Hs. reflexivity.
Qed.

(** X24. The extension taken from the name of an uploaded file always exists
    and holds no dot. For a name with a dot it is what follows the last
    dot (the empty string when the name ends in a dot); for a name with no
    dot it is the whole name. *)
Theorem fileExt_after_last_dot (fileName : string) :
  exists ext,
    fileExt fileName = Some ext
    /\ ~ In "."%char (String.list_ascii_of_string ext)
    /\ ((~ In "."%char (String.list_ascii_of_string fileName) /\ ext = fileName)
        \/ exists stem, fileName = stem +:+ "." +:+ ext).
Proof.
  unfold fileExt.
  destruct (splitOn_shape "." fileName)
    as (first & rest & -> & Hfirst & Hone & Hmore).
  destruct rest as [|second rest].
  - exists first. split; [reflexivity|]. split; [exact Hfirst|].
    left. rewrite <- (Hone eq_refl). split; [exact Hfirst | reflexivity].
  - destruct Hmore as (ext & stem & Hlast & Hext & Hs); [discriminate|].
    exists ext. split.
    + rewrite last_cons, Hlast. reflexivity.
    + split; [exact Hext|]. right. exists (first +:+ stem).
      rewrite Hs. rewrite append_assoc. reflexivity.
Qed.

End ImageUpload.
